(** * MyMinecraftLauncher: a shallow embedding of the launcher core

    The development follows [src/MyMinecraftLauncher.py].  Python [str]
    values are sequences of Unicode code points, dictionaries with
    optional keys become records with [option] fields (or finite maps
    where the key set is open), functions that raise return a sum of an
    exception and a value, and the functions that touch the disk, the
    network or the profile registry thread an explicit program state. *)

From Stdlib Require Import String Ascii.
From stdpp Require Import gmap list fin_maps.

Local Open Scope N_scope.

(** ** Strings *)

(** A Python character is a code point, a Python string a list of them. *)
Abbreviation char := N (only parsing).
Abbreviation str := (list N) (only parsing).

(** An ASCII literal as a Python string. *)
Definition py (s : string) : str :=
  List.map N_of_ascii (list_ascii_of_string s).

Definition ch (a : ascii) : char := N_of_ascii a.

(** The double quote, code point 34. *)
Definition DQUOTE : char := 34.

(** [str.isspace] on one character: the code points CPython's
    [_PyUnicode_IsWhitespace] accepts. *)
Definition isspace (c : char) : bool :=
  ((0x09 <=? c) && (c <=? 0x0D)) || ((0x1C <=? c) && (c <=? 0x20))
  || (c =? 0x85) || (c =? 0xA0) || (c =? 0x1680)
  || ((0x2000 <=? c) && (c <=? 0x200A))
  || (c =? 0x2028) || (c =? 0x2029) || (c =? 0x202F)
  || (c =? 0x205F) || (c =? 0x3000).

Fixpoint lstrip (s : str) : str :=
  match s with
  | [] => []
  | c :: r => if isspace c then lstrip r else s
  end.

Definition rstrip (s : str) : str := rev (lstrip (rev s)).

(** [s.strip()] *)
Definition strip (s : str) : str := rstrip (lstrip s).

(** [s.replace(old, new)] for one-character [old] and [new]. *)
Definition replace (old new : char) (s : str) : str :=
  List.map (fun c => if c =? old then new else c) s.

(** [s.split(sep)[-1]] for a one-character [sep]: the text after the last
    separator, the whole string when there is none. *)
Fixpoint last_segment_from (sep : char) (cur : str) (s : str) : str :=
  match s with
  | [] => cur
  | c :: r =>
      if c =? sep then last_segment_from sep [] r
      else last_segment_from sep (cur ++ [c]) r
  end.

Definition split_last (sep : char) (s : str) : str :=
  last_segment_from sep [] s.

(** ** [format_name] (source lines 243-249) *)

Definition format_name (name : str) : str :=
  let name :=
    replace (ch "'") (ch "_")
      (replace DQUOTE (ch "_")
        (replace (ch "\") (ch "_")
          (replace (ch "/") (ch "_") (strip name)))) in
  if bool_decide (name = py "..") then py "__" else name.

(** The four [replace] calls of [format_name] on one character. *)
Definition sanitize (c : char) : char :=
  if (c =? ch "/") || (c =? ch "\") || (c =? DQUOTE) || (c =? ch "'")
  then ch "_" else c.

Definition forbidden (c : char) : Prop :=
  c = ch "/" \/ c = ch "\" \/ c = DQUOTE \/ c = ch "'".

(** A string that does not start with white space. *)
Definition head_ok (s : str) : Prop :=
  match s with
  | [] => True
  | c :: _ => isspace c = false
  end.

(** ** Paths and exceptions *)

(** Paths are [pathlib.Path] values kept as their list of components; the
    first components are those of the environment variable the path starts
    from. *)
Abbreviation path := (list (list N)) (only parsing).

(** A component that [pathlib] keeps: not empty and not the dot. *)
Definition plain (s : str) : Prop := s <> [] /\ s <> py ".".

#[global] Instance plain_dec (s : str) : Decision (plain s).
Proof. unfold plain. apply _. Defined.

(** [p / s] for a string [s] without separator and drive, as the sanitized
    names, the hashes and the file names used by the launcher are: a plain
    [s] becomes the last component, an empty [s] and the dot are dropped. *)
Definition path_div (p : path) (s : str) : path :=
  if bool_decide (plain s) then p ++ [s] else p.
Infix "/:" := path_div (at level 40, left associativity).

Fixpoint join (sep : str) (parts : list str) : str :=
  match parts with
  | [] => []
  | [x] => x
  | x :: rest => x ++ sep ++ join sep rest
  end.

(** [str(p)] on the target platform: components joined by a backslash. *)
Definition path_str (p : path) : str := join (py "\") p.

(** A dictionary key as it appears in a [KeyError]. *)
Inductive pykey :=
  | KStr (s : str)
  | KInt (n : Z).

Inductive exn :=
  | StopIteration
  | Exception (msg : str)
  | KeyError (k : pykey)
  | FileExistsError (p : path)
  | FileNotFoundError (p : path)
  | NotADirectoryError (p : path)
  | IsADirectoryError (p : path)
  | URLError (u : str)
  | IncompleteRead (u : str)
  | BadZipFile (p : path).

#[global] Instance pykey_eq_dec : EqDecision pykey.
Proof. solve_decision. Defined.
#[global] Instance exn_eq_dec : EqDecision exn.
Proof. solve_decision. Defined.

(** A call either raises or returns. *)
Definition result (A : Type) : Type := exn + A.

(** ** Rules (source lines 253-266) *)

(** [rule["os"]]: only its ["name"] is read. *)
Record OsConstraint := { name : str }.

(** A rule dictionary: ["action"] and the optional key ["os"]. *)
Record Rule := { action : str; os : option OsConstraint }.

(** The loop of [allowed_by_rules]; [allowed] is the local variable. *)
Fixpoint allowed_by_rules_loop (allowed : bool) (rules : list Rule) : bool :=
  match rules with
  | [] => allowed
  | rule :: rest =>
      if bool_decide (action rule = py "allow") then
        match os rule with
        | Some o =>
            if bool_decide (name o = py "windows") then true
            else allowed_by_rules_loop allowed rest
        | None => allowed_by_rules_loop true rest
        end
      else if bool_decide (action rule = py "disallow") then
        match os rule with
        | Some o =>
            if bool_decide (name o = py "windows") then false
            else allowed_by_rules_loop allowed rest
        | None => allowed_by_rules_loop false rest
        end
      else allowed_by_rules_loop allowed rest
  end.

Definition allowed_by_rules (rules : list Rule) : bool :=
  allowed_by_rules_loop false rules.

(** The algorithm of the specification, one constructor per bullet, for a
    target platform [target]: [Allowed target allowed rules b] says that
    the evaluation that has reached [rules] with the running flag
    [allowed] ends with [b]. *)
Inductive Allowed (target : str) : bool -> list Rule -> bool -> Prop :=
  | Allowed_end allowed :
      Allowed target allowed [] allowed
  | Allowed_allow_match allowed r o rest :
      action r = py "allow" -> os r = Some o -> name o = target ->
      Allowed target allowed (r :: rest) true
  | Allowed_allow_any allowed r rest b :
      action r = py "allow" -> os r = None ->
      Allowed target true rest b ->
      Allowed target allowed (r :: rest) b
  | Allowed_allow_other allowed r o rest b :
      action r = py "allow" -> os r = Some o -> name o <> target ->
      Allowed target allowed rest b ->
      Allowed target allowed (r :: rest) b
  | Allowed_disallow_match allowed r o rest :
      action r = py "disallow" -> os r = Some o -> name o = target ->
      Allowed target allowed (r :: rest) false
  | Allowed_disallow_any allowed r rest b :
      action r = py "disallow" -> os r = None ->
      Allowed target false rest b ->
      Allowed target allowed (r :: rest) b
  | Allowed_disallow_other allowed r o rest b :
      action r = py "disallow" -> os r = Some o -> name o <> target ->
      Allowed target allowed rest b ->
      Allowed target allowed (r :: rest) b.

(** The two actions of the data model. *)
Definition known_action (r : Rule) : Prop :=
  action r = py "allow" \/ action r = py "disallow".

(** A rule that names the target platform, and a rule without OS
    constraint. *)
Definition platform_rule (r : Rule) : Prop :=
  known_action r /\ exists o, os r = Some o /\ name o = py "windows".

Definition unconditional_rule (r : Rule) : Prop :=
  known_action r /\ os r = None.

(** ** Library URLs (source lines 270-283) *)

Record Artifact := { url : str }.

(** [library["downloads"]]: the optional keys ["classifiers"] (a
    dictionary from classifier name to artifact) and ["artifact"]. *)
Record Downloads := {
  classifiers : option (gmap str Artifact);
  artifact : option Artifact
}.

(** A library dictionary: the optional key ["rules"], ["downloads"], and
    whether the key ["extract"] is present. *)
Record Library := {
  rules : option (list Rule);
  downloads : Downloads;
  extract : bool
}.

(** [library["downloads"]["classifiers"]["natives-windows"]], when both
    keys are there. *)
Definition native_artifact (library : Library) : option Artifact :=
  match classifiers (downloads library) with
  | Some cs => cs !! py "natives-windows"
  | None => None
  end.

(** The test that makes the loop [continue]. *)
Definition rejected (library : Library) : bool :=
  match rules library with
  | Some rs => negb (allowed_by_rules rs)
  | None => false
  end.

(** One iteration of the loop of [get_library_urls]; [result] is the list
    being appended to. *)
Definition get_library_urls_step (result : list str) (library : Library)
  : list str :=
  if rejected library then result
  else
    let result :=
      match native_artifact library with
      | Some native => result ++ [url native]
      | None => result
      end in
    match artifact (downloads library) with
    | Some a => result ++ [url a]
    | None => result
    end.

Definition get_library_urls (args : list Library) : list str :=
  fold_left get_library_urls_step args [].

(** What the specification says one entry contributes. *)
Definition entry_urls (library : Library) : list str :=
  if rejected library then []
  else
    match native_artifact library with Some a => [url a] | None => [] end
    ++ match artifact (downloads library) with Some a => [url a] | None => [] end.

(** ** Template substitution (source lines 435-454) *)

(** Where the single iterator over the string is being consumed: by the
    outer [for], by [next(iterator)] after a dollar, or by the inner [for]
    that collects [key]. *)
Inductive position :=
  | Outer
  | AfterDollar
  | InKey (key : str).

Section Template.
(** The values of [kwargs] and their [str()]. *)
Context {V : Type} (to_str : V -> str).

Fixpoint format_template_from (kwargs : gmap str V) (pos : position)
    (result : str) (iterator : str) : exn + str :=
  match iterator with
  | [] =>
      match pos with
      | Outer => inr result
      | AfterDollar => inl StopIteration
      | InKey _ => inl (Exception (py "Format should be terminated."))
      end
  | c :: iterator =>
      match pos with
      | Outer =>
          if c =? ch "$" then
            format_template_from kwargs AfterDollar result iterator
          else format_template_from kwargs Outer (result ++ [c]) iterator
      | AfterDollar =>
          if c =? ch "{" then
            format_template_from kwargs (InKey []) result iterator
          else
            format_template_from kwargs Outer (result ++ py "$" ++ [c])
              iterator
      | InKey key =>
          if c =? ch "}" then
            match kwargs !! key with
            | Some v =>
                format_template_from kwargs Outer (result ++ to_str v)
                  iterator
            | None => inl (KeyError (KStr key))
            end
          else format_template_from kwargs (InKey (key ++ [c])) result iterator
      end
  end.

Definition format_template (string : str) (kwargs : gmap str V)
  : exn + str :=
  format_template_from kwargs Outer [] string.
End Template.

(** ** Program state: disk, network log, profile registry *)

Inductive node :=
  | Dir
  | File (content : str).

#[global] Instance node_eq_dec : EqDecision node.
Proof. solve_decision. Defined.

Record state := {
  fs : gmap path node;       (* what exists on the disk *)
  requests : list str;       (* every URL given to [urlopen], oldest first *)
  profiles : list str;       (* the global list [profiles] *)
  reloads : nat              (* calls of [application_window.reload] *)
}.

Definition set_fs (f : gmap path node) (st : state) : state :=
  {| fs := f; requests := requests st; profiles := profiles st;
     reloads := reloads st |}.

(** A statement that may raise: the state reached so far is kept. *)
Definition M (A : Type) : Type := state -> result A * state.

Definition raise {A} (e : exn) : M A := fun st => (inl e, st).

Definition ret {A} (a : A) : M A := fun st => (inr a, st).
Definition bind {A B} (m : M A) (k : A -> M B) : M B :=
  fun st =>
    match m st with
    | (inr a, st') => k a st'
    | (inl e, st') => (inl e, st')
    end.

Notation "'let!' x ':=' m 'in' k" := (bind m (fun x => k))
  (at level 10, x binder, m at level 100, k at level 200).
Notation "'do!' m 'in' k" := (bind m (fun _ => k))
  (at level 10, m at level 100, k at level 200).

(** Lifts a disk operation. *)
Definition on_fs (op : gmap path node -> result (gmap path node)) : M unit :=
  fun st =>
    match op (fs st) with
    | inr f => (inr tt, set_fs f st)
    | inl e => (inl e, st)
    end.

(** *** Disk operations *)

Definition parent (p : path) : path := removelast p.

(** [os.makedirs(p, exist_ok=True)]: walks the components from the top,
    creates the directories that are missing; [walked] is the part of the
    path already walked. *)
Fixpoint makedirs_from (walked : path) (todo : list str) (f : gmap path node)
  : result (gmap path node) :=
  match todo with
  | [] => inr f
  | s :: todo' =>
      let q := walked ++ [s] in
      match f !! q with
      | Some Dir => makedirs_from q todo' f
      | Some (File _) =>
          inl (match todo' with
               | [] => FileExistsError q
               | _ => NotADirectoryError q
               end)
      | None => makedirs_from q todo' (<[q := Dir]> f)
      end
  end.

Definition makedirs_exist_ok (p : path) (f : gmap path node)
  : result (gmap path node) :=
  makedirs_from [] p f.

(** The prefixes of [walked ++ todo] that are longer than [walked], shortest
    first: the directories [makedirs_from] visits. *)
Fixpoint prefixes_from (walked : path) (todo : list str) : list path :=
  match todo with
  | [] => []
  | s :: todo' => (walked ++ [s]) :: prefixes_from (walked ++ [s]) todo'
  end.

(** Every directory above [p] exists, as it does on a disk where [p]
    exists. *)
Definition dirs_above (f : gmap path node) (p : path) : Prop :=
  Forall (fun q => f !! q = Some Dir) (prefixes_from [] (parent p)).

(** [p.mkdir(parents=True)] *)
Definition mkdir_parents (p : path) (f : gmap path node)
  : result (gmap path node) :=
  match f !! p with
  | Some _ => inl (FileExistsError p)
  | None =>
      match makedirs_exist_ok (parent p) f with
      | inr f' => inr (<[p := Dir]> f')
      | inl e => inl e
      end
  end.

(** [p.open("w")] and [p.open("wb")]: the file is created or emptied. *)
Definition open_w (p : path) (f : gmap path node) : result (gmap path node) :=
  match f !! p with
  | Some Dir => inl (IsADirectoryError p)
  | _ =>
      match f !! parent p with
      | Some Dir => inr (<[p := File []]> f)
      | _ => inl (FileNotFoundError p)
      end
  end.

(** [file.write(data)] on a file just opened for writing. *)
Definition write (p : path) (data : str) (f : gmap path node)
  : result (gmap path node) :=
  inr (<[p := File data]> f).

(** [shutil.rmtree(p)] *)
Definition rmtree (p : path) (f : gmap path node) : result (gmap path node) :=
  match f !! p with
  | None => inl (FileNotFoundError p)
  | Some (File _) => inl (NotADirectoryError p)
  | Some Dir => inr (filter (fun kv => ¬ p `prefix_of` kv.1) f)
  end.

(** [p.unlink()] *)
Definition unlink (p : path) (f : gmap path node) : result (gmap path node) :=
  match f !! p with
  | None => inl (FileNotFoundError p)
  | Some Dir => inl (IsADirectoryError p)
  | Some (File _) => inr (delete p f)
  end.

(** [zipfile.extractall(target)]: every member is written below [target]. *)
Definition extractall (target : path) (members : list (path * node))
    (f : gmap path node) : gmap path node :=
  fold_left (fun f m => <[target ++ m.1 := m.2]> f) members f.

(** [p.exists()] *)
Definition path_exists (p : path) : M bool :=
  fun st => (inr (bool_decide (is_Some (fs st !! p))), st).

(** [list.remove(x)]: drops the first occurrence. *)
Fixpoint list_remove (x : str) (l : list str) : list str :=
  match l with
  | [] => []
  | y :: r => if bool_decide (y = x) then r else y :: list_remove x r
  end.

(** *** The outside world *)

(** What a server does with a request. *)
Inductive response :=
  | Unreachable                 (* [urlopen] raises *)
  | Interrupted                 (* [res.read()] raises *)
  | Body (data : str).

(** [value] in [asset_index["objects"].items()] *)
Record AssetObject := { hash : str; size : Z }.

(** The hash of an object is a hex string that is not empty. *)
Definition hex_digit (c : char) : bool :=
  ((ch "0" <=? c) && (c <=? ch "9"))
  || ((ch "a" <=? c) && (c <=? ch "f"))
  || ((ch "A" <=? c) && (c <=? ch "F")).

Definition is_hash (h : str) : Prop :=
  h <> [] /\ Forall (fun c => hex_digit c = true) h.

(** What the handler of the Create button does to the window. *)
Inductive ui_event :=
  | Destroyed                   (* [self.destroy()]: the profile was created *)
  | Bell                        (* [self.create.bell()]: the attempt is refused *)
  | ErrorShown (ex : exn)       (* [messagebox.showerror] after the cleanup *)
  | Escaped (ex : exn).         (* the cleanup itself raised *)

(** ** Directories and the class path of [launch_profile]
    (source lines 43-52 and 466-470) *)

Section Directories.
(** [Path(os.getenv("TEMP"))] and [Path(os.getenv("LOCALAPPDATA"))]. *)
Variables (TEMP LOCALAPPDATA : path).

Definition APPLICATION_NAME : str := py "MyMinecraftLauncher".
Definition TEMP_DIRECTORY : path := TEMP /: APPLICATION_NAME.
Definition APPLICATION_DIRECTORY : path := LOCALAPPDATA /: APPLICATION_NAME.
Definition ASSETS_DIRECTORY : path := APPLICATION_DIRECTORY /: py "assets".
Definition ASSET_OBJECTS_DIRECTORY : path := ASSETS_DIRECTORY /: py "objects".
Definition ASSET_INDEXES_DIRECTORY : path := ASSETS_DIRECTORY /: py "indexes".
Definition PROFILES_DIRECTORY : path := APPLICATION_DIRECTORY /: py "profiles".
Definition LIBRARIES_DIRECTORY : path := APPLICATION_DIRECTORY /: py "libraries".
Definition JAVA_DIRECTORY : path := APPLICATION_DIRECTORY /: py "java".
Definition VERSIONS_DIRECTORY : path := APPLICATION_DIRECTORY /: py "versions".

(** The list [classpath] built by [launch_profile]. *)
Definition classpath (version_id : str) (libraries : list Library)
  : list str :=
  List.map (fun url => path_str (LIBRARIES_DIRECTORY /: split_last (ch "/") url))
    (get_library_urls libraries)
  ++ [path_str (VERSIONS_DIRECTORY /: (version_id ++ py ".jar"))].

(** *** Network and archives *)

(** The answer of the network to a URL, and the members of a zip
    archive ([None] when the bytes are no archive). *)
Variable network : str -> response.
Variable zip_members : str -> option (list (path * node)).

(** [urlopen(url)] *)
Definition urlopen (url : str) : M response :=
  fun st =>
    let st' := {| fs := fs st; requests := requests st ++ [url];
                  profiles := profiles st; reloads := reloads st |} in
    match network url with
    | Unreachable => (inl (URLError url), st')
    | r => (inr r, st')
    end.

(** [res.read()] *)
Definition read (url : str) (res : response) : M str :=
  match res with
  | Body data => ret data
  | _ => raise (IncompleteRead url)
  end.

(** The download idiom of the source:
    [with urlopen(url) as res: with path.open("wb") as file:
       file.write(res.read())]. *)
Definition download_to (url : str) (p : path) : M unit :=
  let! res := urlopen url in
  do! on_fs (open_w p) in
  let! data := read url res in
  on_fs (write p data).

(** ** [download_java] (source lines 304-315) *)

Definition JRE_DOWNLOAD_URLS (version : Z) : option str :=
  if (version =? 8)%Z then
    Some (py "https://github.com/adoptium/temurin8-binaries/releases/download/jdk8u392-b08/OpenJDK8U-jre_x64_windows_hotspot_8u392b08.zip")
  else if (version =? 17)%Z then
    Some (py "https://github.com/adoptium/temurin17-binaries/releases/download/jdk-17.0.9%2B9.1/OpenJDK17U-jre_x64_windows_hotspot_17.0.9_9.zip")
  else None.

Definition JRE_DIRECTORIES (version : Z) : option path :=
  if (version =? 8)%Z then
    Some (JAVA_DIRECTORY /: py "jdk8u392-b08-jre" /: py "bin")
  else if (version =? 17)%Z then
    Some (JAVA_DIRECTORY /: py "jdk-17.0.9+9-jre" /: py "bin")
  else None.

(** [d[key]] on a dictionary with integer keys. *)
Definition getitem {A} (d : Z -> option A) (key : Z) : M A :=
  match d key with
  | Some a => ret a
  | None => raise (KeyError (KInt key))
  end.

(** [with ZipFile(zip_path, "r") as zipfile: zipfile.extractall(target)] *)
Definition extract_zip (zip_path target : path) : M unit :=
  fun st =>
    match fs st !! zip_path with
    | Some (File data) =>
        match zip_members data with
        | Some members => (inr tt, set_fs (extractall target members (fs st)) st)
        | None => (inl (BadZipFile zip_path), st)
        end
    | Some Dir => (inl (IsADirectoryError zip_path), st)
    | None => (inl (FileNotFoundError zip_path), st)
    end.

Definition java_zip_path (url : str) : path :=
  TEMP_DIRECTORY /: (split_last (ch "/") url ++ py ".zip").

Definition download_java (version : Z) : M unit :=
  let! dir := getitem JRE_DIRECTORIES version in
  let! installed := path_exists dir in
  if installed then ret tt
  else
    let! url := getitem JRE_DOWNLOAD_URLS version in
    let zip_path := java_zip_path url in
    do! download_to url zip_path in
    do! extract_zip zip_path JAVA_DIRECTORY in
    on_fs (unlink zip_path).

(** ** The asset loop of [download_assets] (source lines 332-343) *)

Definition ASSETS_URL : str := py "https://resources.download.minecraft.net".

(** The place of an object in the store and the URL it is fetched from. *)
Definition asset_path (hash : str) : path :=
  ASSET_OBJECTS_DIRECTORY /: take 2%nat hash /: hash.

Definition asset_url (hash : str) : str :=
  ASSETS_URL ++ py "/" ++ take 2%nat hash ++ py "/" ++ hash.

(** One iteration of the loop; the value returned is the local variable
    [path]. *)
Definition download_asset (value : AssetObject) : M path :=
  let hash := hash value in
  let short_hash := take 2%nat hash in
  do! on_fs (makedirs_exist_ok (ASSET_OBJECTS_DIRECTORY /: short_hash)) in
  let path := ASSET_OBJECTS_DIRECTORY /: short_hash /: hash in
  let! present := path_exists path in
  if present then ret path
  else
    let url := ASSETS_URL ++ py "/" ++ short_hash ++ py "/" ++ hash in
    do! download_to url path in
    ret path.

(** The loop over [asset_index["objects"].items()]. *)
Fixpoint download_asset_objects (objects : list (str * AssetObject))
  : M unit :=
  match objects with
  | [] => ret tt
  | (_, value) :: rest =>
      do! download_asset value in
      download_asset_objects rest
  end.

(** ** Profiles (source lines 386-409 and 74-87) *)

(** The version descriptor and the three calls of [create_profile] that
    fetch and place the version: any behaviour is allowed for them. *)
Variable VersionJson : Type.
Variable get_version_json : str -> M VersionJson.
Variable download_version : VersionJson -> M unit.
Variable link_legacy_assets : str -> VersionJson -> M unit.

(** [application_window.reload()] *)
Definition reload : M unit :=
  fun st =>
    (inr tt, {| fs := fs st; requests := requests st;
                profiles := profiles st; reloads := S (reloads st) |}).

Definition set_profiles (ps : list str) : M unit :=
  fun st =>
    (inr tt, {| fs := fs st; requests := requests st;
                profiles := ps; reloads := reloads st |}).

Definition create_profile (name version_id : str) : M unit :=
  let name := format_name name in
  do! on_fs (mkdir_parents (PROFILES_DIRECTORY /: name /: py ".minecraft")) in
  do! on_fs (open_w (PROFILES_DIRECTORY /: name /: py ".VERSION")) in
  do! on_fs (write (PROFILES_DIRECTORY /: name /: py ".VERSION") version_id) in
  let! version_json := get_version_json version_id in
  do! download_version version_json in
  do! link_legacy_assets name version_json in
  do! (fun st => set_profiles (profiles st ++ [name]) st) in
  reload.

Definition profile_exists (name : str) (st : state) : bool :=
  bool_decide (format_name name ∈ profiles st).

Definition delete_profile (name : str) : M unit :=
  let name := format_name name in
  do! on_fs (rmtree (PROFILES_DIRECTORY /: name)) in
  fun st =>
    if bool_decide (name ∈ profiles st) then
      (do! set_profiles (list_remove name (profiles st)) in reload) st
    else (inr tt, st).

(** What [delete_profile] leaves when the directory of the profile
    exists. *)
Definition after_delete (name : str) (st : state) : state :=
  let name := format_name name in
  {| fs := filter (fun kv => ¬ (PROFILES_DIRECTORY /: name)
                               `prefix_of` kv.1) (fs st);
     requests := requests st;
     profiles := if bool_decide (name ∈ profiles st)
                 then list_remove name (profiles st) else profiles st;
     reloads := if bool_decide (name ∈ profiles st)
                then S (reloads st) else reloads st |}.

(** [NewProfileWindow._on_create]: [selection] is what [get_selection]
    returned, [name] the text of the entry. *)
Definition _on_create (selection : option str) (name : str) (st : state)
  : ui_event * state :=
  match selection with
  | Some (c :: sel) =>
      if negb (profile_exists name st) then
        match create_profile name (c :: sel) st with
        | (inr _, st') => (Destroyed, st')
        | (inl ex, st') =>
            match delete_profile name st' with
            | (inr _, st'') => (ErrorShown ex, st'')
            | (inl ex', st'') => (Escaped ex', st'')
            end
        end
      else (Bell, st)
  | _ => (Bell, st)
  end.
End Directories.

(** ** Example data *)

(** Three entries of the shape of the example. *)
Definition example_rejected : Library :=
  {| rules := Some [ {| action := py "allow";
                        os := Some {| name := py "osx" |} |} ];
     downloads := {| classifiers := None;
                     artifact := Some {| url := py "https://h/a/A.jar" |} |};
     extract := false |}.

Definition example_native : Library :=
  {| rules := None;
     downloads :=
       {| classifiers :=
            Some {[ py "natives-windows" := {| url := py "https://h/b/B-native.jar" |} ]};
          artifact := Some {| url := py "https://h/b/B.jar" |} |};
     extract := true |}.

Definition example_main : Library :=
  {| rules := None;
     downloads := {| classifiers := None;
                     artifact := Some {| url := py "https://h/c/C.jar" |} |};
     extract := false |}.

(** A server that answers every request, an archive with the Java 8
    runtime directory, an empty disk, and a disk with the temporary
    directory. *)
Definition example_network : str -> response :=
  fun _ => Body (py "data").

Definition example_zip_members : str -> option (list (path * node)) :=
  fun _ =>
    Some [ ([py "jdk8u392-b08-jre"], Dir);
           ([py "jdk8u392-b08-jre"; py "bin"], Dir) ].

Definition empty_state : state :=
  {| fs := ∅; requests := []; profiles := []; reloads := 0 |}.

Definition example_temp_state : state :=
  {| fs := {[ [py "T"] := Dir; [py "T"; py "MyMinecraftLauncher"] := Dir ]};
     requests := []; profiles := []; reloads := 0 |}.

Definition example_asset : AssetObject :=
  {| hash := py "bdf48ef6b5d0d23bbb02e17d04865216179f510a"; size := 3665 |}.

(** A disk with a directory left behind for a name that is not
    registered. *)
Definition example_leftover_state : state :=
  {| fs := {[ [py "L"; py "MyMinecraftLauncher"; py "profiles"; py "half"] := Dir;
              [py "L"; py "MyMinecraftLauncher"; py "profiles"; py "half";
               py ".minecraft"] := Dir ]};
     requests := []; profiles := []; reloads := 0 |}.

(** A registry with one profile, and its directory tree. *)
Definition example_profile_state : state :=
  {| fs := {[ [py "L"; py "MyMinecraftLauncher"; py "profiles"; py "Mine"] := Dir;
              [py "L"; py "MyMinecraftLauncher"; py "profiles"; py "Mine";
               py ".minecraft"] := Dir;
              [py "L"; py "MyMinecraftLauncher"; py "profiles"; py "Mine";
               py ".VERSION"] := File (py "1.8.9") ]};
     requests := []; profiles := [py "Mine"]; reloads := 1 |}.

(** Callees of [create_profile] that succeed and change nothing. *)
Definition example_get_version_json : str -> M unit := fun _ => ret tt.
Definition example_download_version : unit -> M unit := fun _ => ret tt.
Definition example_link_legacy_assets : str -> unit -> M unit :=
  fun _ _ => ret tt.

(** ** More of the launcher *)

(** A rule the evaluator does not skip: its action is allow or disallow
    and it has no OS constraint or names windows. *)
Definition relevant_rule (r : Rule) : bool :=
  (bool_decide (action r = py "allow")
   || bool_decide (action r = py "disallow"))
  && match os r with
     | Some o => bool_decide (name o = py "windows")
     | None => true
     end.

(** *** [SetUsernameWindow._on_confirm] (source lines 116-124) *)

(** The class [[A-Za-z0-9_]] of the pattern. *)
Definition word_char (c : char) : bool :=
  ((ch "A" <=? c) && (c <=? ch "Z"))
  || ((ch "a" <=? c) && (c <=? ch "z"))
  || ((ch "0" <=? c) && (c <=? ch "9"))
  || (c =? ch "_").

(** One to sixteen characters of the class. *)
Definition is_username (s : str) : bool :=
  (1 <=? length s)%nat && (length s <=? 16)%nat && forallb word_char s.

(** [re.match(r"^[A-Za-z0-9_]{1,16}$", s)]: the dollar of a Python pattern
    matches at the end of the string and also just before a line feed that
    ends the string. *)
Definition username_match (s : str) : bool :=
  is_username s
  || match rev s with
     | c :: r => (c =? 10) && is_username (rev r)
     | [] => false
     end.

(** The handler of the Confirm button: [text] is what the entry holds,
    [username] the global; the value is what happens to the window, the new
    value of the global and the new state. *)
Definition _on_confirm (text username : str) (st : state)
  : ui_event * str * state :=
  let name := strip text in
  if username_match name then
    (Destroyed, name,
     {| fs := fs st; requests := requests st; profiles := profiles st;
        reloads := S (reloads st) |})
  else (Bell, username, st).

(** *** Descriptors and the functions that fetch a version
    (source lines 287-300, 319-330, 347-382) *)

(** [version_json["assetIndex"]] *)
Record AssetIndexRef := { index_id : str; index_url : str }.

(** A version descriptor, with the keys the download functions read:
    ["id"], ["assetIndex"], ["downloads"]["client"]["url"],
    ["javaVersion"]["majorVersion"] and ["libraries"]. *)
Record VersionJson := {
  v_id : str;
  v_assetIndex : AssetIndexRef;
  v_client_url : str;
  v_majorVersion : Z;
  v_libraries : list Library
}.

(** An entry of [manifest["versions"]]. *)
Record ManifestEntry := { entry_id : str; entry_url : str }.

(** [p.mkdir(exist_ok=True)] *)
Definition mkdir_exist_ok (p : path) (f : gmap path node)
  : result (gmap path node) :=
  match f !! p with
  | Some Dir => inr f
  | Some (File _) => inl (FileExistsError p)
  | None =>
      match f !! parent p with
      | Some Dir => inr (<[p := Dir]> f)
      | Some (File _) => inl (NotADirectoryError p)
      | None => inl (FileNotFoundError p)
      end
  end.

(** [with p.open("r") as file]: what the file holds. *)
Definition read_file (p : path) : M str :=
  fun st =>
    match fs st !! p with
    | Some (File data) => (inr data, st)
    | Some Dir => (inl (IsADirectoryError p), st)
    | None => (inl (FileNotFoundError p), st)
    end.

(** A [for] loop whose body may raise. *)
Fixpoint for_each {A} (body : A -> M unit) (l : list A) : M unit :=
  match l with
  | [] => ret tt
  | x :: rest =>
      do! body x in
      for_each body rest
  end.

Section Versions.
Variables (TEMP LOCALAPPDATA : path).
Variable network : str -> response.
Variable zip_members : str -> option (list (path * node)).

(** The global [manifest["versions"]], loaded once at start. *)
Variable manifest : list ManifestEntry.

(** [json.load] and [json.dump] on descriptors and on the objects of an
    asset index: reading gives [None] for a text that is no JSON document,
    and [json.load] then raises [json_error]. *)
Variable json_error : exn.
Variable load_version : str -> option VersionJson.
Variable dump_version : VersionJson -> str.
Variable load_index : str -> option (list (str * AssetObject)).
Variable dump_index : list (str * AssetObject) -> str.

Definition json_load {A} (load : str -> option A) (text : str) : M A :=
  match load text with
  | Some a => ret a
  | None => raise json_error
  end.

(** [next(filter(lambda v: v["id"] == id, manifest["versions"]))["url"]] *)
Definition manifest_url (id : str) : M str :=
  match List.find (fun v => bool_decide (entry_id v = id)) manifest with
  | Some v => ret (entry_url v)
  | None => raise StopIteration
  end.

Definition get_version_json (id : str) : M VersionJson :=
  let version_json_path := VERSIONS_DIRECTORY LOCALAPPDATA /: (id ++ py ".json") in
  let! cached := path_exists version_json_path in
  if cached then
    let! text := read_file version_json_path in
    json_load load_version text
  else
    let! version_url := manifest_url id in
    let! res := urlopen network version_url in
    let! text := read version_url res in
    let! version_json := json_load load_version text in
    do! on_fs (open_w version_json_path) in
    do! on_fs (write version_json_path (dump_version version_json)) in
    ret version_json.

Definition download_assets (version_json : VersionJson) : M unit :=
  let index_path :=
    ASSET_INDEXES_DIRECTORY LOCALAPPDATA
    /: (index_id (v_assetIndex version_json) ++ py ".json") in
  let! cached := path_exists index_path in
  let! asset_index :=
    if cached then
      let! text := read_file index_path in
      json_load load_index text
    else
      let asset_index_url := index_url (v_assetIndex version_json) in
      let! res := urlopen network asset_index_url in
      let! text := read asset_index_url res in
      let! asset_index := json_load load_index text in
      do! on_fs (open_w index_path) in
      do! on_fs (write index_path (dump_index asset_index)) in
      ret asset_index in
  download_asset_objects LOCALAPPDATA network asset_index.

Definition EXTRACTED_LIBRARIES_DIRECTORY : path :=
  LIBRARIES_DIRECTORY LOCALAPPDATA /: py "native".

(** The body of the first loop of [download_libraries]. *)
Definition download_library (url : str) : M unit :=
  let path := LIBRARIES_DIRECTORY LOCALAPPDATA /: split_last (ch "/") url in
  let! present := path_exists path in
  if present then ret tt
  else download_to network url path.

(** The body of its second loop. *)
Definition extract_library (directory : path) (library : Library) : M unit :=
  if extract library then
    for_each
      (fun url =>
         extract_zip zip_members
           (LIBRARIES_DIRECTORY LOCALAPPDATA /: split_last (ch "/") url)
           directory)
      (get_library_urls [library])
  else ret tt.

Definition download_libraries (version_json : VersionJson) : M unit :=
  do! for_each download_library
        (get_library_urls (v_libraries version_json)) in
  let directory := EXTRACTED_LIBRARIES_DIRECTORY /: v_id version_json in
  do! on_fs (mkdir_exist_ok directory) in
  for_each (extract_library directory) (v_libraries version_json).

Definition download_version (version_json : VersionJson) : M unit :=
  let id := v_id version_json in
  let client_path := VERSIONS_DIRECTORY LOCALAPPDATA /: (id ++ py ".jar") in
  let! present := path_exists client_path in
  do! (if present then ret tt
       else download_to network (v_client_url version_json) client_path) in
  do! download_java TEMP LOCALAPPDATA network zip_members
        (v_majorVersion version_json) in
  do! download_libraries version_json in
  download_assets version_json.
End Versions.

(** *** [link_legacy_assets] (source lines 413-431) *)

(** The components of a relative name: the parts between slashes and
    backslashes, without the empty ones and the dots. *)
Fixpoint components_from (cur : str) (s : str) : list str :=
  match s with
  | [] => if bool_decide (plain cur) then [cur] else []
  | c :: r =>
      if (c =? ch "/") || (c =? ch "\") then
        (if bool_decide (plain cur) then [cur] else [])
        ++ components_from [] r
      else components_from (cur ++ [c]) r
  end.

(** [p / s] for a relative name [s] of several components, as the names of
    the objects of an asset index are. *)
Definition path_join (p : path) (s : str) : path := p ++ components_from [] s.

(** A name that [/] appends to the path on its left: it names no drive and
    does not start at the root. *)
Definition relative_name (s : str) : Prop :=
  head s <> Some (ch "/") /\ head s <> Some (ch "\") /\ ch ":" ∉ s.

(** [os.link(src, dst)]: [dst] becomes a file with what [src] holds. *)
Definition os_link (src dst : path) (f : gmap path node)
  : result (gmap path node) :=
  match f !! src with
  | None => inl (FileNotFoundError src)
  | Some Dir => inl (IsADirectoryError src)
  | Some (File data) =>
      match f !! dst with
      | Some _ => inl (FileExistsError dst)
      | None =>
          match f !! parent dst with
          | Some Dir => inr (<[dst := File data]> f)
          | _ => inl (FileNotFoundError dst)
          end
      end
  end.

Section Legacy.
Variable LOCALAPPDATA : path.
Variable json_error : exn.
Variable load_index : str -> option (list (str * AssetObject)).

(** The body of the loop of [link_legacy_assets]. *)
Definition link_legacy_asset (legacy_dir : path)
    (item : str * AssetObject) : M unit :=
  let link := path_join legacy_dir item.1 in
  let! present := path_exists link in
  if present then ret tt
  else
    let hash := hash item.2 in
    let short_hash := take 2%nat hash in
    do! on_fs (makedirs_exist_ok (parent link)) in
    on_fs (os_link (ASSET_OBJECTS_DIRECTORY LOCALAPPDATA /: short_hash /: hash)
             link).

Definition link_legacy_assets (profile_name : str)
    (version_json : VersionJson) : M unit :=
  let profile_name := format_name profile_name in
  let asset_index_id := index_id (v_assetIndex version_json) in
  if negb (bool_decide (asset_index_id = py "legacy")
           || bool_decide (asset_index_id = py "pre-1.6"))
  then ret tt
  else
    let! text :=
      read_file (ASSET_INDEXES_DIRECTORY LOCALAPPDATA
                 /: (asset_index_id ++ py ".json")) in
    let! asset_index := json_load json_error load_index text in
    let legacy_dir :=
      PROFILES_DIRECTORY LOCALAPPDATA /: profile_name /: py ".minecraft"
      /: py "resources" in
    do! on_fs (mkdir_exist_ok legacy_dir) in
    for_each (link_legacy_asset legacy_dir) asset_index.
End Legacy.

(** The second state has everything the first has on the disk, unchanged,
    and the same request log, registry and reload count. *)
Definition only_adds (st st1 : state) : Prop :=
  fs st ⊆ fs st1 /\ requests st1 = requests st
  /\ profiles st1 = profiles st /\ reloads st1 = reloads st.



(** Two profiles on the disk and in the registry. *)
Definition example_two_profiles_state : state :=
  {| fs := {[ [py "L"] := Dir;
              [py "L"; py "MyMinecraftLauncher"] := Dir;
              [py "L"; py "MyMinecraftLauncher"; py "profiles"] := Dir;
              [py "L"; py "MyMinecraftLauncher"; py "profiles"; py "A"] := Dir;
              [py "L"; py "MyMinecraftLauncher"; py "profiles"; py "B"] := Dir ]};
     requests := []; profiles := [py "A"; py "B"]; reloads := 1 |}.

(** A descriptor that asks for Java 16, a manifest that lists it, and a
    codec that knows one document. *)
Definition example_version : VersionJson :=
  {| v_id := py "1.17.1";
     v_assetIndex := {| index_id := py "1.17";
                        index_url := py "https://m/indexes/1.17.json" |};
     v_client_url := py "https://m/client/1.17.1/client.jar";
     v_majorVersion := 16;
     v_libraries := [example_native; example_main] |}.

Definition example_manifest : list ManifestEntry :=
  [ {| entry_id := py "1.8.9"; entry_url := py "https://m/v/1.8.9.json" |};
    {| entry_id := py "1.17.1"; entry_url := py "https://m/v/1.17.1.json" |} ].

Definition example_load_version (text : str) : option VersionJson :=
  if bool_decide (text = py "{1.17.1}") then Some example_version else None.

Definition example_dump_version (v : VersionJson) : str := py "{1.17.1}".

Definition example_version_network (url : str) : response :=
  if bool_decide (url = py "https://m/v/1.17.1.json") then Body (py "{1.17.1}")
  else Body (py "data").

Definition example_load_index (text : str)
  : option (list (str * AssetObject)) :=
  if bool_decide (text = py "{index}") then
    Some [ (py "icons/icon_16x16.png", example_asset);
           (py "icons/icon_32x32.png", example_asset) ]
  else None.

(** A disk with the directories made at start for versions and
    libraries. *)
Definition example_versions_state : state :=
  {| fs := {[ [py "L"] := Dir;
              [py "L"; py "MyMinecraftLauncher"] := Dir;
              [py "L"; py "MyMinecraftLauncher"; py "versions"] := Dir;
              [py "L"; py "MyMinecraftLauncher"; py "libraries"] := Dir ]};
     requests := []; profiles := []; reloads := 1 |}.

(** A disk with an asset index and its one object. *)
Definition example_warm_state : state :=
  {| fs := {[ [py "L"] := Dir;
              [py "L"; py "MyMinecraftLauncher"] := Dir;
              [py "L"; py "MyMinecraftLauncher"; py "assets"] := Dir;
              [py "L"; py "MyMinecraftLauncher"; py "assets"; py "indexes"] := Dir;
              [py "L"; py "MyMinecraftLauncher"; py "assets"; py "indexes";
               py "1.17.json"] := File (py "{index}");
              [py "L"; py "MyMinecraftLauncher"; py "assets"; py "objects"] := Dir;
              [py "L"; py "MyMinecraftLauncher"; py "assets"; py "objects";
               py "bd"] := Dir;
              [py "L"; py "MyMinecraftLauncher"; py "assets"; py "objects";
               py "bd"; py "bdf48ef6b5d0d23bbb02e17d04865216179f510a"]
                := File (py "data") ]};
     requests := []; profiles := []; reloads := 1 |}.

(** A legacy descriptor, and a disk with the legacy index, its object in
    the store and a profile to link into. *)
Definition example_legacy_version : VersionJson :=
  {| v_id := py "1.5.2";
     v_assetIndex := {| index_id := py "legacy";
                        index_url := py "https://m/indexes/legacy.json" |};
     v_client_url := py "https://m/client/1.5.2/client.jar";
     v_majorVersion := 8;
     v_libraries := [] |}.

Definition example_legacy_state : state :=
  {| fs := {[ [py "L"] := Dir;
              [py "L"; py "MyMinecraftLauncher"] := Dir;
              [py "L"; py "MyMinecraftLauncher"; py "assets"] := Dir;
              [py "L"; py "MyMinecraftLauncher"; py "assets"; py "indexes"] := Dir;
              [py "L"; py "MyMinecraftLauncher"; py "assets"; py "indexes";
               py "legacy.json"] := File (py "{index}");
              [py "L"; py "MyMinecraftLauncher"; py "assets"; py "objects"] := Dir;
              [py "L"; py "MyMinecraftLauncher"; py "assets"; py "objects";
               py "bd"] := Dir;
              [py "L"; py "MyMinecraftLauncher"; py "assets"; py "objects";
               py "bd"; py "bdf48ef6b5d0d23bbb02e17d04865216179f510a"]
                := File (py "data");
              [py "L"; py "MyMinecraftLauncher"; py "profiles"] := Dir;
              [py "L"; py "MyMinecraftLauncher"; py "profiles"; py "Old"] := Dir;
              [py "L"; py "MyMinecraftLauncher"; py "profiles"; py "Old";
               py ".minecraft"] := Dir ]};
     requests := []; profiles := [py "Old"]; reloads := 1 |}.

(** A disk where a regular file has the name of a profile directory. *)
Definition example_occupied_state : state :=
  {| fs := {[ [py "L"] := Dir;
              [py "L"; py "MyMinecraftLauncher"] := Dir;
              [py "L"; py "MyMinecraftLauncher"; py "profiles"] := Dir;
              [py "L"; py "MyMinecraftLauncher"; py "profiles"; py "notes"]
                := File (py "text") ]};
     requests := []; profiles := []; reloads := 1 |}.



(** * Properties *)

(** ** The rule evaluator *)

Lemma allowed_loop_sound allowed rules b :
  Allowed (py "windows") allowed rules b ->
  allowed_by_rules_loop allowed rules = b.
Proof.
  induction 1 as
    [ allowed | allowed r o rest Ha Ho Hn | allowed r rest b Ha Ho _ IH
    | allowed r o rest b Ha Ho Hn _ IH | allowed r o rest Ha Ho Hn
    | allowed r rest b Ha Ho _ IH | allowed r o rest b Ha Ho Hn _ IH ];
    simpl; try reflexivity; rewrite Ha, Ho; simpl.
  - by rewrite bool_decide_eq_true_2.
  - done.
  - by rewrite bool_decide_eq_false_2.
  - by rewrite bool_decide_eq_true_2.
  - done.
  - by rewrite bool_decide_eq_false_2.
Qed.

Lemma allowed_loop_complete rules :
  Forall known_action rules ->
  forall allowed,
    Allowed (py "windows") allowed rules (allowed_by_rules_loop allowed rules).
Proof.
  induction 1 as [| r rest Hr _ IH]; intros allowed; simpl.
  - constructor.
  - destruct Hr as [Ha | Ha]; rewrite Ha; simpl;
      destruct (os r) as [o |] eqn:Ho.
    + case_bool_decide as Hn.
      * eapply Allowed_allow_match; eauto.
      * eapply Allowed_allow_other; eauto.
    + eapply Allowed_allow_any; eauto.
    + case_bool_decide as Hn.
      * eapply Allowed_disallow_match; eauto.
      * eapply Allowed_disallow_other; eauto.
    + eapply Allowed_disallow_any; eauto.
Qed.

(** C1: on rules whose action is allow or disallow, [allowed_by_rules]
    computes exactly the result of the specification's algorithm for the
    target platform windows (start with false, return at once on an allow
    or disallow rule whose OS constraint matches, set the flag on
    unconditional rules, skip rules whose constraint does not match, return
    the flag at the end); and an unconditional allow followed by a disallow
    for another platform gives true. *)
Theorem allowed_by_rules_follows_algorithm (rules : list Rule) (b : bool) :
  Forall known_action rules ->
  (Allowed (py "windows") false rules b <-> allowed_by_rules rules = b)
  /\ (forall other, other <> py "windows" ->
        allowed_by_rules
          [ {| action := py "allow"; os := None |};
            {| action := py "disallow"; os := Some {| name := other |} |} ]
        = true).
Proof.
  intros Hk. split.
  - split.
    + apply allowed_loop_sound.
    + intros <-. by apply allowed_loop_complete.
  - intros other Hother. unfold allowed_by_rules. simpl.
    by rewrite bool_decide_eq_false_2.
Qed.

Lemma allowed_by_rules_follows_algorithm_witness :
  let rules :=
    [ {| action := py "allow"; os := None |};
      {| action := py "disallow"; os := Some {| name := py "osx" |} |} ] in
  Forall known_action rules
  /\ (Allowed (py "windows") false rules true <-> allowed_by_rules rules = true).
Proof.
  assert (Hk : Forall known_action
    [ {| action := py "allow"; os := None |};
      {| action := py "disallow"; os := Some {| name := py "osx" |} |} ]).
  { constructor; [by left |]. constructor; [by right |]. constructor. }
  split; [exact Hk |].
  exact (proj1 (allowed_by_rules_follows_algorithm _ true Hk)).
Defined.

Lemma allowed_step_no_platform x flag rest :
  ~ platform_rule x ->
  exists flag',
    allowed_by_rules_loop flag (x :: rest) = allowed_by_rules_loop flag' rest
    /\ (~ unconditional_rule x -> flag' = flag).
Proof.
  intros Hx. unfold platform_rule, unconditional_rule, known_action in *.
  simpl.
  destruct (decide (action x = py "allow")) as [Ha | Ha];
    [rewrite bool_decide_eq_true_2 by done
    | rewrite bool_decide_eq_false_2 by done;
      destruct (decide (action x = py "disallow")) as [Hd | Hd];
      [rewrite bool_decide_eq_true_2 by done
      | rewrite bool_decide_eq_false_2 by done ] ];
    try (destruct (os x) as [o |] eqn:Ho;
         [destruct (decide (name o = py "windows")) as [Hn | Hn];
          [exfalso; apply Hx; eauto
          | rewrite bool_decide_eq_false_2 by done ] |]);
    eexists; (split; [reflexivity |]); intros Hu; try done;
    exfalso; apply Hu; eauto.
Qed.

(** The first rule that names the platform decides, whatever follows it. *)
Lemma allowed_by_rules_short_circuit before r after allowed :
  Forall (fun x => ~ platform_rule x) before ->
  platform_rule r ->
  allowed_by_rules_loop allowed (before ++ r :: after)
  = bool_decide (action r = py "allow").
Proof.
  intros Hbefore [Hk (o & Ho & Hn)]. revert allowed.
  induction Hbefore as [| x before Hx _ IH]; intros allowed.
  - simpl. rewrite Ho, Hn. destruct Hk as [-> | ->]; reflexivity.
  - cbn [app].
    destruct (allowed_step_no_platform x allowed (before ++ r :: after) Hx)
      as (flag' & -> & _). apply IH.
Qed.

(** Without a rule that names the platform, the last unconditional rule
    decides. *)
Lemma allowed_by_rules_last_unconditional before r after allowed :
  Forall (fun x => ~ platform_rule x) (before ++ r :: after) ->
  unconditional_rule r ->
  Forall (fun x => ~ unconditional_rule x) after ->
  allowed_by_rules_loop allowed (before ++ r :: after)
  = bool_decide (action r = py "allow").
Proof.
  intros Hall [Hk Ho] Hafter.
  apply Forall_app in Hall as [Hbefore Hrest].
  apply Forall_cons in Hrest as [_ Hrest].
  assert (Hskip : forall flag, allowed_by_rules_loop flag after = flag).
  { clear -Hrest Hafter. induction after as [| x after IH]; intros flag;
      [done |].
    apply Forall_cons in Hrest as [Hx Hrest].
    apply Forall_cons in Hafter as [Hu Hafter].
    destruct (allowed_step_no_platform x flag after Hx) as (flag' & -> & Hsame).
    rewrite (Hsame Hu). by apply IH. }
  revert allowed.
  induction Hbefore as [| x before Hx _ IH]; intros allowed.
  - simpl. rewrite Ho. destruct Hk as [-> | ->]; simpl; by rewrite Hskip.
  - cbn [app].
    destruct (allowed_step_no_platform x allowed (before ++ r :: after) Hx)
      as (flag' & -> & _). apply IH.
Qed.

(** ** Library URLs and the class path *)

Lemma get_library_urls_step_app result library :
  get_library_urls_step result library = result ++ entry_urls library.
Proof.
  unfold get_library_urls_step, entry_urls.
  destruct (rejected library); [by rewrite app_nil_r |].
  destruct (native_artifact library), (artifact (downloads library));
    simpl; by rewrite <- ?app_assoc, ?app_nil_r.
Qed.

Lemma get_library_urls_fold args result :
  fold_left get_library_urls_step args result
  = result ++ flat_map entry_urls args.
Proof.
  revert result. induction args as [| library args IH]; intros result; simpl.
  - by rewrite app_nil_r.
  - by rewrite IH, get_library_urls_step_app, <- app_assoc.
Qed.

Lemma get_library_urls_flat_map args :
  get_library_urls args = flat_map entry_urls args.
Proof. unfold get_library_urls. by rewrite get_library_urls_fold. Qed.

Lemma get_library_urls_app args1 args2 :
  get_library_urls (args1 ++ args2)
  = get_library_urls args1 ++ get_library_urls args2.
Proof. by rewrite !get_library_urls_flat_map, flat_map_app. Qed.

(** C3: [get_library_urls] gives, entry by entry and in the order of the
    list, nothing for an entry whose rules are rejected and otherwise the
    windows native artifact URL (when present) followed by the main
    artifact URL (when present); the class path is the file names of these
    URLs under the library directory, in that order, followed by the
    client jar; so for [A] rejected, [B] with native and main, [C] with main
    only, it is B-native, B-main, C-main, client jar. *)
Theorem classpath_in_library_order (LOCALAPPDATA : path) (version_id : str) :
  (forall libraries,
     get_library_urls libraries = flat_map entry_urls libraries
     /\ classpath LOCALAPPDATA version_id libraries
        = List.map
            (fun u => path_str
               (LIBRARIES_DIRECTORY LOCALAPPDATA /: split_last (ch "/") u))
            (flat_map entry_urls libraries)
          ++ [path_str
                (VERSIONS_DIRECTORY LOCALAPPDATA /: (version_id ++ py ".jar"))])
  /\ (forall A B C b_native b_main c_main,
        rejected A = true ->
        rejected B = false -> native_artifact B = Some b_native ->
        artifact (downloads B) = Some b_main ->
        rejected C = false -> native_artifact C = None ->
        artifact (downloads C) = Some c_main ->
        classpath LOCALAPPDATA version_id [A; B; C]
        = [ path_str (LIBRARIES_DIRECTORY LOCALAPPDATA
                        /: split_last (ch "/") (url b_native));
            path_str (LIBRARIES_DIRECTORY LOCALAPPDATA
                        /: split_last (ch "/") (url b_main));
            path_str (LIBRARIES_DIRECTORY LOCALAPPDATA
                        /: split_last (ch "/") (url c_main));
            path_str (VERSIONS_DIRECTORY LOCALAPPDATA
                        /: (version_id ++ py ".jar")) ]).
Proof.
  split.
  - intros libraries. unfold classpath.
    by rewrite get_library_urls_flat_map.
  - intros A B C bn bm cm HA HB HBn HBm HC HCn HCm.
    unfold classpath. rewrite get_library_urls_flat_map. simpl.
    unfold entry_urls. rewrite HA, HB, HBn, HBm, HC, HCn, HCm. reflexivity.
Qed.

Lemma classpath_in_library_order_witness :
  classpath [py "C:\Users\u"] (py "1.8.9")
    [example_rejected; example_native; example_main]
  = [ py "C:\Users\u\MyMinecraftLauncher\libraries\B-native.jar";
      py "C:\Users\u\MyMinecraftLauncher\libraries\B.jar";
      py "C:\Users\u\MyMinecraftLauncher\libraries\C.jar";
      py "C:\Users\u\MyMinecraftLauncher\versions\1.8.9.jar" ].
Proof.
  exact (proj2 (classpath_in_library_order [py "C:\Users\u"] (py "1.8.9"))
           example_rejected example_native example_main
           {| url := py "https://h/b/B-native.jar" |}
           {| url := py "https://h/b/B.jar" |}
           {| url := py "https://h/c/C.jar" |}
           eq_refl eq_refl eq_refl eq_refl eq_refl eq_refl eq_refl).
Defined.

(** C9: the evaluator rejects the empty rule list, so an entry whose rules
    list is empty contributes no URL wherever it stands in the list, whereas
    an entry without the rules key always contributes its native and main
    artifact URLs. *)
Theorem empty_rules_versus_no_rules :
  allowed_by_rules [] = false
  /\ (forall before library after,
        rules library = Some [] ->
        get_library_urls (before ++ library :: after)
        = get_library_urls before ++ get_library_urls after)
  /\ (forall before library after,
        rules library = None ->
        get_library_urls (before ++ library :: after)
        = get_library_urls before
          ++ (match native_artifact library with
              | Some a => [url a] | None => [] end
              ++ match artifact (downloads library) with
                 | Some a => [url a] | None => [] end)
          ++ get_library_urls after).
Proof.
  split; [reflexivity |]. split.
  - intros before library after Hr.
    rewrite !get_library_urls_flat_map, flat_map_app. simpl.
    unfold entry_urls at 2, rejected. by rewrite Hr.
  - intros before library after Hr.
    rewrite !get_library_urls_flat_map, flat_map_app. simpl.
    unfold entry_urls at 2, rejected. by rewrite Hr.
Qed.

Lemma empty_rules_versus_no_rules_witness :
  get_library_urls
    [ {| rules := Some []; downloads := downloads example_native;
         extract := false |} ] = []
  /\ get_library_urls [example_native]
     = [py "https://h/b/B-native.jar"; py "https://h/b/B.jar"].
Proof.
  split.
  - exact (proj1 (proj2 empty_rules_versus_no_rules) []
             {| rules := Some []; downloads := downloads example_native;
                extract := false |} [] eq_refl).
  - exact (proj2 (proj2 empty_rules_versus_no_rules) []
             example_native [] eq_refl).
Defined.

(** ** Name sanitization *)

Lemma replace_chain (s : str) :
  replace (ch "'") (ch "_")
    (replace DQUOTE (ch "_")
      (replace (ch "\") (ch "_") (replace (ch "/") (ch "_") s)))
  = List.map sanitize s.
Proof.
  unfold replace. rewrite !List.map_map. apply List.map_ext. intros c.
  unfold sanitize.
  destruct (N.eqb_spec c (ch "/")) as [-> | H1]; [reflexivity |].
  destruct (N.eqb_spec c (ch "\")) as [-> | H2]; [reflexivity |].
  destruct (N.eqb_spec c DQUOTE) as [-> | H3]; [reflexivity |].
  destruct (N.eqb_spec c (ch "'")) as [-> | H4]; reflexivity.
Qed.

Lemma format_name_unfold (s : str) :
  format_name s
  = if bool_decide (strip s = py "..") then py "__"
    else List.map sanitize (strip s).
Proof.
  unfold format_name. rewrite replace_chain.
  assert (Hdots : forall t : str, List.map sanitize t = py ".." <-> t = py "..").
  { intros t. split.
    - destruct t as [| a [| b [| ? ?]]]; try discriminate.
      cbn [List.map]. intros [= Ha Hb]. revert Ha Hb. unfold sanitize.
      repeat case_match; try discriminate; by intros -> ->.
    - by intros ->. }
  destruct (decide (strip s = py "..")) as [Hs | Hs].
  - by rewrite !bool_decide_eq_true_2; [| | apply Hdots].
  - by rewrite !bool_decide_eq_false_2; [| | rewrite Hdots].
Qed.

Lemma sanitize_not_forbidden c : ~ forbidden (sanitize c).
Proof.
  unfold sanitize, forbidden.
  destruct (N.eqb_spec c (ch "/")) as [-> | H1]; [simpl; intuition discriminate |].
  destruct (N.eqb_spec c (ch "\")) as [-> | H2]; [simpl; intuition discriminate |].
  destruct (N.eqb_spec c DQUOTE) as [-> | H3]; [simpl; intuition discriminate |].
  destruct (N.eqb_spec c (ch "'")) as [-> | H4]; [simpl; intuition discriminate |].
  simpl. intuition.
Qed.

Lemma sanitize_idemp c : sanitize (sanitize c) = sanitize c.
Proof.
  unfold sanitize at 2 3.
  destruct ((c =? ch "/") || (c =? ch "\") || (c =? DQUOTE) || (c =? ch "'"))
    eqn:Hc; [reflexivity |].
  unfold sanitize. by rewrite Hc.
Qed.

Lemma isspace_sanitize c : isspace (sanitize c) = isspace c.
Proof.
  unfold sanitize.
  destruct (N.eqb_spec c (ch "/")) as [-> | H1]; [reflexivity |].
  destruct (N.eqb_spec c (ch "\")) as [-> | H2]; [reflexivity |].
  destruct (N.eqb_spec c DQUOTE) as [-> | H3]; [reflexivity |].
  destruct (N.eqb_spec c (ch "'")) as [-> | H4]; reflexivity.
Qed.

(** C6: [format_name] is the stripped name with every slash, backslash,
    double quote and single quote replaced by an underscore, except that
    the stripped name [..] gives [__]; no character of the result is one of
    those four; and [../../x] gives [.._.._x]. *)
Theorem format_name_sanitizes (s : str) :
  format_name s
  = (if bool_decide (strip s = py "..") then py "__"
     else List.map sanitize (strip s))
  /\ Forall (fun c => ~ forbidden c) (format_name s)
  /\ format_name (py "../../x") = py ".._.._x".
Proof.
  split; [apply format_name_unfold |]. split; [| reflexivity].
  rewrite format_name_unfold. case_bool_decide.
  - repeat constructor; unfold forbidden; intuition discriminate.
  - apply Forall_forall. intros c Hc.
    apply list_elem_of_In, List.in_map_iff in Hc as (c' & <- & _).
    apply sanitize_not_forbidden.
Qed.

(** *** Stripping *)

Lemma lstrip_head_ok s : head_ok (lstrip s).
Proof.
  induction s as [| c r IH]; simpl; [exact I |].
  destruct (isspace c) eqn:Hc; [exact IH | exact Hc].
Qed.

Lemma lstrip_id s : head_ok s -> lstrip s = s.
Proof. destruct s as [| c r]; simpl; [done |]. by intros ->. Qed.

(** [lstrip] removes a prefix. *)
Lemma lstrip_suffix s : exists w, s = w ++ lstrip s.
Proof.
  induction s as [| c r [w IH]]; simpl.
  - by exists [].
  - destruct (isspace c).
    + exists (c :: w). simpl. by rewrite <- IH.
    + by exists [].
Qed.

Lemma rstrip_head_ok s : head_ok s -> head_ok (rstrip s).
Proof.
  intros Hs. unfold rstrip.
  destruct (lstrip_suffix (rev s)) as [w Hw].
  apply (f_equal (@rev _)) in Hw. rewrite rev_involutive, rev_app_distr in Hw.
  destruct (rev (lstrip (rev s))) as [| c r]; [exact I |].
  rewrite Hw in Hs. exact Hs.
Qed.

Lemma strip_head_ok s : head_ok (strip s) /\ head_ok (rev (strip s)).
Proof.
  unfold strip. split.
  - apply rstrip_head_ok, lstrip_head_ok.
  - unfold rstrip. rewrite rev_involutive. apply lstrip_head_ok.
Qed.

Lemma strip_id s : head_ok s -> head_ok (rev s) -> strip s = s.
Proof.
  intros H1 H2. unfold strip, rstrip.
  by rewrite (lstrip_id s), (lstrip_id (rev s)), rev_involutive.
Qed.

Lemma lstrip_map (f : char -> char) s :
  (forall c, isspace (f c) = isspace c) ->
  lstrip (List.map f s) = List.map f (lstrip s).
Proof.
  intros Hf. induction s as [| c r IH]; simpl; [done |].
  rewrite Hf. by destruct (isspace c).
Qed.

Lemma strip_map (f : char -> char) s :
  (forall c, isspace (f c) = isspace c) ->
  strip (List.map f s) = List.map f (strip s).
Proof.
  intros Hf. unfold strip, rstrip.
  by rewrite lstrip_map, <- List.map_rev, lstrip_map, List.map_rev.
Qed.

Lemma strip_idemp s : strip (strip s) = strip s.
Proof. apply strip_id; apply strip_head_ok. Qed.

(** C10: sanitizing a sanitized name changes nothing. *)
Theorem format_name_idempotent (s : str) :
  format_name (format_name s) = format_name s.
Proof.
  rewrite (format_name_unfold s). case_bool_decide as Hs; [reflexivity |].
  rewrite format_name_unfold.
  rewrite (strip_map sanitize) by apply isspace_sanitize.
  rewrite strip_idemp, List.map_map.
  rewrite (List.map_ext (fun c => sanitize (sanitize c)) sanitize sanitize_idemp).
  case_bool_decide as Hd; [| reflexivity].
  exfalso. apply Hs.
  destruct (strip s) as [| a [| b [| ? ?]]]; try discriminate.
  revert Hd. cbn [List.map]. intros [= Ha Hb]. revert Ha Hb.
  unfold sanitize. repeat case_match; try discriminate; by intros -> ->.
Qed.

(** ** Template substitution *)

Section TemplateFacts.
Context {V : Type} (to_str : V -> str) (kwargs : gmap str V).

(** What has been produced so far stays in front of the rest. *)
Lemma format_template_from_result pos result s :
  format_template_from to_str kwargs pos result s
  = sum_map id (app result) (format_template_from to_str kwargs pos [] s).
Proof.
  revert pos result. induction s as [| c s IH]; intros pos result.
  - destruct pos; cbn [format_template_from sum_map id]; by rewrite ?app_nil_r.
  - destruct pos as [| | key]; cbn [format_template_from app].
    + destruct (c =? ch "$"); [apply IH |].
      rewrite (IH Outer (result ++ [c])), (IH Outer [c]).
      destruct (format_template_from _ _ _ [] s); simpl; [done |].
      by rewrite <- app_assoc.
    + destruct (c =? ch "{"); [apply IH |].
      rewrite (IH Outer (result ++ _)), (IH Outer (py "$" ++ [c])).
      destruct (format_template_from _ _ _ [] s); simpl; [done |].
      by rewrite <- !app_assoc.
    + destruct (c =? ch "}"); [| apply IH].
      case_match; [| done].
      rewrite (IH Outer (result ++ _)), (IH Outer (to_str _)).
      destruct (format_template_from _ _ _ [] s); simpl; [done |].
      by rewrite <- app_assoc.
Qed.

(** A character other than the dollar is copied. *)
Lemma format_template_plain c s :
  c <> ch "$" ->
  format_template to_str (c :: s) kwargs
  = sum_map id (cons c) (format_template to_str s kwargs).
Proof.
  intros Hc. unfold format_template. cbn [format_template_from].
  destruct (N.eqb_spec c (ch "$")); [done |].
  by rewrite format_template_from_result.
Qed.

(** A dollar followed by a character other than the opening brace is
    copied together with that character. *)
Lemma format_template_dollar_other c s :
  c <> ch "{" ->
  format_template to_str (ch "$" :: c :: s) kwargs
  = sum_map id (fun r => ch "$" :: c :: r) (format_template to_str s kwargs).
Proof.
  intros Hc. unfold format_template. cbn [format_template_from].
  destruct (N.eqb_spec c (ch "{")); [done |].
  by rewrite format_template_from_result.
Qed.

Lemma format_template_in_key key key' s result :
  ch "}" ∉ key' ->
  format_template_from to_str kwargs (InKey key) result (key' ++ ch "}" :: s)
  = match kwargs !! (key ++ key') with
    | Some v =>
        sum_map id (app (result ++ to_str v)) (format_template to_str s kwargs)
    | None => inl (KeyError (KStr (key ++ key')))
    end.
Proof.
  revert key. induction key' as [| c key' IH]; intros key Hk; cbn [format_template_from app].
  - rewrite app_nil_r, N.eqb_refl. destruct (kwargs !! key); [| done].
    by rewrite format_template_from_result.
  - apply not_elem_of_cons in Hk as [Hc Hk].
    destruct (N.eqb_spec c (ch "}")); [done |].
    rewrite IH by done. by rewrite <- app_assoc.
Qed.

(** A dollar, an opening brace, a key without closing brace and a closing
    brace are replaced by the text of the value bound to the key, and a
    key that is not bound raises [KeyError]. *)
Lemma format_template_placeholder key s :
  ch "}" ∉ key ->
  format_template to_str (py "${" ++ key ++ ch "}" :: s) kwargs
  = match kwargs !! key with
    | Some v => sum_map id (app (to_str v)) (format_template to_str s kwargs)
    | None => inl (KeyError (KStr key))
    end.
Proof.
  intros Hk. unfold format_template at 1. change (py "${" ++ key ++ ch "}" :: s) with (ch "$" :: ch "{" :: key ++ ch "}" :: s). cbn [format_template_from]. rewrite !N.eqb_refl.
  by rewrite format_template_in_key.
Qed.

Lemma format_template_in_key_end key key' result :
  ch "}" ∉ key' ->
  format_template_from to_str kwargs (InKey key) result key'
  = inl (Exception (py "Format should be terminated.")).
Proof.
  revert key. induction key' as [| c key' IH]; intros key Hk; cbn [format_template_from]; [done |].
  apply not_elem_of_cons in Hk as [Hc Hk].
  destruct (N.eqb_spec c (ch "}")); [done |]. by apply IH.
Qed.

(** An opening without a closing brace before the end raises. *)
Lemma format_template_unterminated key :
  ch "}" ∉ key ->
  format_template to_str (py "${" ++ key) kwargs
  = inl (Exception (py "Format should be terminated.")).
Proof.
  intros Hk. unfold format_template.
  change (py "${" ++ key) with (ch "$" :: ch "{" :: key).
  cbn [format_template_from]. rewrite !N.eqb_refl.
  by apply format_template_in_key_end.
Qed.
End TemplateFacts.

Example format_template_hello :
  format_template id (py "Hello ${name}!") {[ py "name" := py "Steve" ]}
  = inr (py "Hello Steve!").
Proof. reflexivity. Qed.

Example format_template_100 (kwargs : gmap str str) :
  format_template id (py "$100") kwargs = inr (py "$100").
Proof. reflexivity. Qed.

Example format_template_unknown_key :
  format_template id (py "${who}") {[ py "name" := py "Steve" ]}
  = inl (KeyError (KStr (py "who"))).
Proof. reflexivity. Qed.

(** C2: where the code leaves the grammar.  A dollar that ends the string
    is followed by no opening brace, yet it is not copied: the call of
    [next] on the exhausted iterator raises [StopIteration].  And the
    character after a dollar is never looked at again, so in [$${name}] the
    second dollar does not open a placeholder and the text is returned as
    it is. *)
Theorem format_template_dollar_slip :
  (forall kwargs : gmap str str,
     format_template id (py "$") kwargs = inl StopIteration)
  /\ (forall kwargs : gmap str str,
        format_template id (py "Price: 5$") kwargs = inl StopIteration)
  /\ format_template id (py "$${name}") {[ py "name" := py "Steve" ]}
     = inr (py "$${name}").
Proof. repeat split. Qed.

(** ** Running statements *)

Lemma bind_ok {A B} (m : M A) (k : A -> M B) st a st' :
  m st = (inr a, st') -> bind m k st = k a st'.
Proof. unfold bind. by intros ->. Qed.

Lemma bind_err {A B} (m : M A) (k : A -> M B) st e st' :
  m st = (inl e, st') -> bind m k st = (inl e, st').
Proof. unfold bind. by intros ->. Qed.

Lemma bind_ret {A B} (a : A) (k : A -> M B) st : bind (ret a) k st = k a st.
Proof. reflexivity. Qed.

(** Runs a [ret] at the head of a sequence. *)
Ltac step_ret :=
  match goal with
  | |- context [bind (ret ?a) ?k ?st] =>
      rewrite (bind_ret a k st); cbn beta
  end.

Lemma path_exists_false p st :
  fs st !! p = None -> path_exists p st = (inr false, st).
Proof.
  intros Hp. unfold path_exists. rewrite Hp.
  by rewrite bool_decide_eq_false_2 by (by intros [? [=]]).
Qed.

Lemma path_exists_true p st :
  is_Some (fs st !! p) -> path_exists p st = (inr true, st).
Proof. intros Hp. unfold path_exists. by rewrite bool_decide_eq_true_2. Qed.

Lemma on_fs_ok op st f :
  op (fs st) = inr f -> on_fs op st = (inr tt, set_fs f st).
Proof. unfold on_fs. by intros ->. Qed.

Lemma on_fs_err op st e :
  op (fs st) = inl e -> on_fs op st = (inl e, st).
Proof. unfold on_fs. by intros ->. Qed.

Lemma set_fs_id st : set_fs (fs st) st = st.
Proof. by destruct st. Qed.

Lemma path_div_plain (p : path) (s : str) : plain s -> p /: s = p ++ [s].
Proof. intros Hs. unfold path_div. by rewrite bool_decide_eq_true_2. Qed.

Lemma parent_div (p : path) (s : str) : plain s -> parent (p /: s) = p.
Proof.
  intros Hs. rewrite path_div_plain by done. apply removelast_last.
Qed.

Lemma plain_suffix (s t : str) : (1 < length t)%nat -> plain (s ++ t).
Proof.
  intros Ht. split; intros H%(f_equal length); rewrite length_app in H;
    simpl in H; lia.
Qed.

Lemma is_hash_plain (h : str) :
  is_hash h -> plain h /\ plain (take 2%nat h).
Proof.
  intros [Hne Hhex]. destruct h as [| c r]; [done |].
  apply Forall_cons in Hhex as [Hc _].
  assert (c <> ch ".") by (intros ->; discriminate).
  repeat split; try discriminate.
  - intros [= -> _]. done.
  - destruct r; intros [= -> ]; done.
Qed.


(** ** The Java runtime *)

Section Java.
Variables (TEMP LOCALAPPDATA : path).
Variable network : str -> response.
Variable zip_members : str -> option (list (path * node)).


Lemma download_java_unsupported version st :
  version <> 8%Z -> version <> 17%Z ->
  download_java TEMP LOCALAPPDATA network zip_members version st
  = (inl (KeyError (KInt version)), st).
Proof.
  intros H8 H17. unfold download_java, getitem, JRE_DIRECTORIES.
  destruct (Z.eqb_spec version 8); [done |].
  destruct (Z.eqb_spec version 17); [done |]. reflexivity.
Qed.


Lemma download_to_ok url p data st :
  network url = Body data ->
  fs st !! p <> Some Dir ->
  fs st !! parent p = Some Dir ->
  download_to network url p st
  = (inr tt, {| fs := <[p := File data]> (fs st);
                requests := requests st ++ [url];
                profiles := profiles st; reloads := reloads st |}).
Proof.
  intros Hnet Hp Hparent. unfold download_to.
  erewrite bind_ok; [| unfold urlopen; by rewrite Hnet].
  erewrite bind_ok; cycle 1.
  { apply on_fs_ok. unfold open_w. cbn [fs]. rewrite Hparent.
    destruct (fs st !! p) as [[|?] |]; done. }
  cbn [read]. erewrite bind_ok; [| reflexivity].
  unfold on_fs, write, set_fs. cbn [fs requests profiles reloads].
  by rewrite insert_insert_eq.
Qed.


End Java.

(** ** Directories *)

(** What [makedirs_from] does when it succeeds: every directory it visits
    exists afterwards, and nothing but absent visited directories has
    changed. *)
Lemma makedirs_from_ok todo : forall walked f f',
  makedirs_from walked todo f = inr f' ->
  Forall (fun q => f' !! q = Some Dir) (prefixes_from walked todo)
  /\ (forall q, q ∉ prefixes_from walked todo -> f' !! q = f !! q)
  /\ (forall q, f !! q = Some Dir -> f' !! q = Some Dir).
Proof.
  induction todo as [| s todo IH]; intros walked f f'; cbn [makedirs_from prefixes_from].
  - intros [= ->]. by repeat split.
  - destruct (f !! (walked ++ [s])) as [[| data] |] eqn:Hq; [| done |].
    + intros H. apply IH in H as (Hall & Hother & Hdir).
      repeat split; [| | done].
      * constructor; [by apply Hdir | done].
      * intros q Hq'. apply not_elem_of_cons in Hq' as [_ Hq']. by apply Hother.
    + intros H. apply IH in H as (Hall & Hother & Hdir).
      repeat split.
      * constructor; [| done]. apply Hdir. by rewrite lookup_insert_eq.
      * intros q Hq'. apply not_elem_of_cons in Hq' as [Hne Hq'].
        rewrite Hother by done. by rewrite lookup_insert_ne.
      * intros q Hqd. apply Hdir.
        destruct (decide (walked ++ [s] = q)) as [<- | Hne].
        -- by rewrite lookup_insert_eq.
        -- by rewrite lookup_insert_ne.
Qed.

(** On directories that exist, [makedirs_from] changes nothing. *)
Lemma makedirs_from_present todo : forall walked f,
  Forall (fun q => f !! q = Some Dir) (prefixes_from walked todo) ->
  makedirs_from walked todo f = inr f.
Proof.
  induction todo as [| s todo IH]; intros walked f; cbn [makedirs_from prefixes_from];
    [done |].
  intros H. apply Forall_cons in H as [-> H]. by apply IH.
Qed.

Lemma prefixes_from_length todo : forall walked q,
  q ∈ prefixes_from walked todo ->
  (length walked < length q <= length walked + length todo)%nat.
Proof.
  induction todo as [| s todo IH]; intros walked q; cbn [prefixes_from].
  - by intros ?%elem_of_nil.
  - intros [-> | Hq]%elem_of_cons.
    + rewrite length_app. simpl. lia.
    + apply IH in Hq. rewrite length_app in Hq. simpl in *. lia.
Qed.

Lemma prefixes_from_last todo : forall walked s,
  walked ++ todo ++ [s] ∈ prefixes_from walked (todo ++ [s]).
Proof.
  induction todo as [| t todo IH]; intros walked s; cbn [prefixes_from app].
  - apply elem_of_cons. by left.
  - apply elem_of_cons. right.
    replace (walked ++ t :: todo ++ [s]) with ((walked ++ [t]) ++ todo ++ [s])
      by by rewrite <- app_assoc.
    apply IH.
Qed.

(** A path is not among the directories above it. *)
Lemma not_in_prefixes_parent (p : path) (s : str) :
  plain s -> p /: s ∉ prefixes_from [] p.
Proof.
  intros Hs H%prefixes_from_length. rewrite path_div_plain in H by done.
  rewrite length_app in H. simpl in H. lia.
Qed.

Lemma in_prefixes_self (p : path) (s : str) :
  plain s -> p /: s ∈ prefixes_from [] (p /: s).
Proof.
  intros Hs. rewrite path_div_plain by done. apply (prefixes_from_last p []).
Qed.

(** ** The asset store *)

Section Assets.
Variable LOCALAPPDATA : path.
Variable network : str -> response.

Lemma download_to_inv url p st st' :
  download_to network url p st = (inr tt, st') ->
  exists data,
    network url = Body data
    /\ st' = {| fs := <[p := File data]> (fs st);
                requests := requests st ++ [url];
                profiles := profiles st; reloads := reloads st |}.
Proof.
  unfold download_to, bind, urlopen.
  destruct (network url) as [| | data] eqn:Hnet; [by intros [=] | |];
    unfold on_fs at 1; cbn [fs];
    (destruct (open_w p (fs st)) as [e | f] eqn:Hopen; [by intros [=] |]);
    cbn [read]; [by intros [=] |].
  unfold ret, on_fs, write, set_fs. cbn [fs requests profiles reloads].
  intros [= <-]. exists data. split; [done |]. f_equal.
  unfold open_w in Hopen. repeat case_match; simplify_eq;
    by rewrite insert_insert_eq.
Qed.

Lemma asset_parent hash :
  is_hash hash ->
  parent (asset_path LOCALAPPDATA hash)
  = ASSET_OBJECTS_DIRECTORY LOCALAPPDATA /: take 2%nat hash.
Proof.
  intros [Hh _]%is_hash_plain. unfold asset_path. by apply parent_div.
Qed.

Lemma asset_not_above hash :
  is_hash hash ->
  asset_path LOCALAPPDATA hash
  ∉ prefixes_from [] (ASSET_OBJECTS_DIRECTORY LOCALAPPDATA /: take 2%nat hash).
Proof.
  intros [Hh _]%is_hash_plain. by apply not_in_prefixes_parent.
Qed.

(** The object is in the store: nothing is fetched, nothing changes. *)
Lemma download_asset_hit value st :
  is_hash (hash value) ->
  dirs_above (fs st) (asset_path LOCALAPPDATA (hash value)) ->
  is_Some (fs st !! asset_path LOCALAPPDATA (hash value)) ->
  download_asset LOCALAPPDATA network value st
  = (inr (asset_path LOCALAPPDATA (hash value)), st).
Proof.
  intros Hh. unfold dirs_above. rewrite asset_parent by done.
  intros Hdirs Hex. unfold download_asset.
  erewrite bind_ok; cycle 1.
  { apply on_fs_ok. by apply makedirs_from_present. }
  rewrite set_fs_id.
  by erewrite bind_ok by by apply path_exists_true.
Qed.

(** The object is not in the store and the server answers: one request,
    and the object is placed at its path. *)
Lemma download_asset_miss value st f data :
  is_hash (hash value) ->
  makedirs_exist_ok (ASSET_OBJECTS_DIRECTORY LOCALAPPDATA /: take 2%nat (hash value))
    (fs st) = inr f ->
  fs st !! asset_path LOCALAPPDATA (hash value) = None ->
  network (asset_url (hash value)) = Body data ->
  download_asset LOCALAPPDATA network value st
  = (inr (asset_path LOCALAPPDATA (hash value)),
     {| fs := <[asset_path LOCALAPPDATA (hash value) := File data]> f;
        requests := requests st ++ [asset_url (hash value)];
        profiles := profiles st; reloads := reloads st |}).
Proof.
  intros Hh Hmk Hnone Hnet. unfold download_asset.
  erewrite bind_ok by by apply on_fs_ok.
  apply makedirs_from_ok in Hmk as (Hall & Hother & _).
  assert (Hpath : f !! asset_path LOCALAPPDATA (hash value) = None).
  { rewrite Hother; [done |]. by apply asset_not_above. }
  erewrite bind_ok by by apply path_exists_false.
  cbn beta iota.
  erewrite bind_ok; cycle 1.
  { apply download_to_ok; [exact Hnet | |]; cbn [fs set_fs];
      fold (asset_path LOCALAPPDATA (hash value)).
    - by rewrite Hpath.
    - rewrite asset_parent by done.
      eapply Forall_forall in Hall; [exact Hall |].
      apply in_prefixes_self. by apply is_hash_plain. }
  reflexivity.
Qed.

(** Whatever the first call did, a second call on the state it left finds
    the object, and the first call made one request exactly when the object
    was not there. *)
Lemma download_asset_again value st p st1 :
  is_hash (hash value) ->
  download_asset LOCALAPPDATA network value st = (inr p, st1) ->
  p = asset_path LOCALAPPDATA (hash value)
  /\ download_asset LOCALAPPDATA network value st1 = (inr p, st1)
  /\ requests st1
     = requests st
       ++ (if bool_decide (is_Some (fs st !! asset_path LOCALAPPDATA (hash value)))
           then [] else [asset_url (hash value)]).
Proof.
  intros Hh. unfold download_asset at 1.
  fold (asset_path LOCALAPPDATA (hash value)). fold (asset_url (hash value)).
  destruct (makedirs_exist_ok
              (ASSET_OBJECTS_DIRECTORY LOCALAPPDATA /: take 2%nat (hash value))
              (fs st)) as [e | f] eqn:Hmk.
  { erewrite bind_err by by apply on_fs_err. by intros [=]. }
  erewrite bind_ok by by apply on_fs_ok.
  apply makedirs_from_ok in Hmk as (Hall & Hother & _).
  assert (Hsame : f !! asset_path LOCALAPPDATA (hash value)
                  = fs st !! asset_path LOCALAPPDATA (hash value)).
  { by apply Hother, asset_not_above. }
  destruct (f !! asset_path LOCALAPPDATA (hash value)) as [n |] eqn:Hp.
  - erewrite bind_ok by (apply path_exists_true; cbn [fs set_fs]; by rewrite Hp).
    cbn beta iota. intros [= <- <-]. split; [done |]. split.
    + apply download_asset_hit; [done | |]; cbn [fs set_fs].
      * unfold dirs_above. by rewrite asset_parent.
      * by rewrite Hp.
    + rewrite bool_decide_eq_true_2 by by rewrite <- Hsame.
      cbn [requests set_fs]. by rewrite app_nil_r.
  - erewrite bind_ok by by apply path_exists_false.
    cbn beta iota.
    destruct (download_to network (asset_url (hash value))
                (asset_path LOCALAPPDATA (hash value)) (set_fs f st))
      as [[e | []] st2] eqn:Hdl.
    { erewrite bind_err by done. by intros [=]. }
    erewrite bind_ok by done. intros [= <- <-]. split; [done |].
    apply download_to_inv in Hdl as (data & Hnet & ->). split.
    + apply download_asset_hit; [done | |]; cbn [fs set_fs].
      * unfold dirs_above. rewrite asset_parent by done.
        apply Forall_forall. intros q Hq.
        rewrite lookup_insert_ne.
        -- by eapply Forall_forall in Hall.
        -- intros <-. by apply asset_not_above in Hq.
      * by rewrite lookup_insert_eq.
    + rewrite bool_decide_eq_false_2; [done |].
      rewrite <- Hsame. by intros [? [=]].
Qed.
End Assets.

(** C7: one iteration of the asset loop is idempotent, for every object
    whose hash is a hex string that is not empty.  When the object is at its
    path (shard directory named by the first two characters of the hash,
    then the hash), the path is returned, no request is made and the state
    is unchanged; whenever a first call returns, it returns that path, a
    second call returns the same path without changing the state, and the
    first call made no request when the object was there and one request
    otherwise; and when the object is absent and the server answers, the
    first call does return, after one request. *)
Theorem download_asset_idempotent (LOCALAPPDATA : path)
    (network : str -> response) (value : AssetObject) (st : state) :
  is_hash (hash value) ->
  (dirs_above (fs st) (asset_path LOCALAPPDATA (hash value)) ->
   is_Some (fs st !! asset_path LOCALAPPDATA (hash value)) ->
   download_asset LOCALAPPDATA network value st
   = (inr (asset_path LOCALAPPDATA (hash value)), st))
  /\ (forall p st1,
        download_asset LOCALAPPDATA network value st = (inr p, st1) ->
        p = asset_path LOCALAPPDATA (hash value)
        /\ download_asset LOCALAPPDATA network value st1 = (inr p, st1)
        /\ requests st1
           = requests st
             ++ (if bool_decide
                      (is_Some (fs st !! asset_path LOCALAPPDATA (hash value)))
                 then [] else [asset_url (hash value)]))
  /\ (forall f data,
        makedirs_exist_ok
          (ASSET_OBJECTS_DIRECTORY LOCALAPPDATA /: take 2%nat (hash value))
          (fs st) = inr f ->
        fs st !! asset_path LOCALAPPDATA (hash value) = None ->
        network (asset_url (hash value)) = Body data ->
        download_asset LOCALAPPDATA network value st
        = (inr (asset_path LOCALAPPDATA (hash value)),
           {| fs := <[asset_path LOCALAPPDATA (hash value) := File data]> f;
              requests := requests st ++ [asset_url (hash value)];
              profiles := profiles st; reloads := reloads st |})).
Proof.
  intros Hh. split; [by apply download_asset_hit |].
  split; intros; [by apply download_asset_again | by apply download_asset_miss].
Qed.

Lemma example_asset_is_hash : is_hash (hash example_asset).
Proof. split; [discriminate |]. by repeat constructor. Defined.

Lemma download_asset_idempotent_witness :
  let first :=
    download_asset [py "L"] example_network example_asset empty_state in
  is_hash (hash example_asset)
  /\ fst first = inr (asset_path [py "L"] (hash example_asset))
  /\ download_asset [py "L"] example_network example_asset (snd first) = first
  /\ requests (snd first)
     = [py "https://resources.download.minecraft.net/bd/bdf48ef6b5d0d23bbb02e17d04865216179f510a"].
Proof.
  destruct (download_asset_idempotent [py "L"] example_network example_asset
              empty_state example_asset_is_hash) as (_ & Hagain & Hmiss).
  specialize (Hmiss _ _ eq_refl eq_refl eq_refl).
  destruct (Hagain _ _ Hmiss) as (_ & Hsecond & Hreq).
  cbv zeta. rewrite Hmiss. cbn [fst snd].
  split; [exact example_asset_is_hash |].
  split; [reflexivity |]. split; [exact Hsecond |]. exact Hreq.
Defined.



(** ** Profiles *)

Lemma bind_inv {A B} (m : M A) (k : A -> M B) st b st' :
  bind m k st = (inr b, st') ->
  exists a st1, m st = (inr a, st1) /\ k a st1 = (inr b, st').
Proof.
  unfold bind. destruct (m st) as [[e | a] st1]; [by intros [=] |].
  intros H. by exists a, st1.
Qed.

Lemma list_remove_not_in x l : x ∉ l -> list_remove x l = l.
Proof.
  induction l as [| y l IH]; [done |]. intros [Hne Hl]%not_elem_of_cons.
  simpl. rewrite bool_decide_eq_false_2 by done. by rewrite IH.
Qed.

Section Profiles.
Variable LOCALAPPDATA : path.
Variable VersionJson : Type.
Variable get_version_json : str -> M VersionJson.
Variable download_version : VersionJson -> M unit.
Variable link_legacy_assets : str -> VersionJson -> M unit.

(** [create] and [on_create] stand for [create_profile] and [_on_create]
    with the parameters of the section. *)
Local Abbreviation create :=
  (create_profile LOCALAPPDATA VersionJson get_version_json download_version
     link_legacy_assets).
Local Abbreviation on_create :=
  (_on_create LOCALAPPDATA VersionJson get_version_json download_version
     link_legacy_assets).

(** A profile that has been created is registered. *)
Lemma create_profile_registers name version_id st st1 :
  create name version_id st = (inr tt, st1) ->
  format_name name ∈ profiles st1.
Proof.
  unfold create_profile. intros H.
  do 6 (apply bind_inv in H as (? & ? & _ & H)).
  apply bind_inv in H as ([] & st2 & Hset & H).
  unfold set_profiles in Hset. unfold reload in H.
  injection Hset as <-. injection H as <-. cbn [profiles].
  apply elem_of_app. right. by apply list_elem_of_singleton.
Qed.

Lemma on_create_refused selection name st :
  format_name name ∈ profiles st ->
  on_create selection name st = (Bell, st).
Proof.
  intros Hreg. unfold _on_create, profile_exists.
  rewrite bool_decide_eq_true_2 by done.
  by destruct selection as [[| c sel] |].
Qed.

Lemma on_create_created selection name st st1 :
  on_create selection name st = (Destroyed, st1) ->
  format_name name ∈ profiles st1.
Proof.
  unfold _on_create.
  destruct selection as [[| c sel] |]; [by intros [=] | | by intros [=]].
  destruct (negb (profile_exists name st)); [| by intros [=]].
  destruct (create name (c :: sel) st) as [[e | []] st'] eqn:Hc.
  - by destruct (delete_profile LOCALAPPDATA name st') as [[? | ?] ?].
  - intros [= <-]. by eapply create_profile_registers.
Qed.

(** Called on a name whose directory tree exists, [create_profile] raises
    at its first statement. *)
Lemma create_profile_exists name version_id st :
  is_Some (fs st !! (PROFILES_DIRECTORY LOCALAPPDATA /: format_name name
                      /: py ".minecraft")) ->
  create name version_id st
  = (inl (FileExistsError (PROFILES_DIRECTORY LOCALAPPDATA /: format_name name
                             /: py ".minecraft")), st).
Proof.
  intros [n Hn]. unfold create_profile.
  erewrite bind_err; [done |].
  apply on_fs_err. unfold mkdir_parents. by rewrite Hn.
Qed.

(** C4: when the sanitized name is registered, the handler of the Create
    button refuses the attempt (it rings the bell, [create_profile] is not
    called) and the state, that is the disk with the directory tree and the
    marker file of the first profile, the registry, the request log, is
    exactly what it was; this is the case in particular after a creation
    that succeeded, for every name with the same sanitized form; and
    [create_profile] itself, called on a name whose directory tree exists,
    raises [FileExistsError] before it changes anything. *)
Theorem create_twice_refused (selection : option str) (name : str)
    (st : state) :
  (format_name name ∈ profiles st ->
   on_create selection name st = (Bell, st))
  /\ (forall st1 selection' name',
        on_create selection name st = (Destroyed, st1) ->
        format_name name' = format_name name ->
        on_create selection' name' st1 = (Bell, st1))
  /\ (forall version_id,
        is_Some (fs st !! (PROFILES_DIRECTORY LOCALAPPDATA /: format_name name
                            /: py ".minecraft")) ->
        create name version_id st
        = (inl (FileExistsError
                  (PROFILES_DIRECTORY LOCALAPPDATA /: format_name name
                     /: py ".minecraft")), st)).
Proof.
  split; [apply on_create_refused |]. split.
  - intros st1 selection' name' Hcreated Hsame.
    apply on_create_refused. rewrite Hsame.
    by eapply on_create_created.
  - intros version_id. apply create_profile_exists.
Qed.

End Profiles.

Lemma create_twice_refused_witness :
  let on_create :=
    _on_create [py "L"] unit example_get_version_json
      example_download_version example_link_legacy_assets in
  on_create (Some (py "1.20.1")) (py " Mine ") example_profile_state
  = (Bell, example_profile_state)
  /\ fst (on_create (Some (py "1.8.9")) (py "My Profile") empty_state)
     = Destroyed
  /\ on_create (Some (py "1.8.9")) (py "  My Profile")
       (snd (on_create (Some (py "1.8.9")) (py "My Profile") empty_state))
     = (Bell, snd (on_create (Some (py "1.8.9")) (py "My Profile") empty_state)).
Proof.
  cbv zeta. split; [| split].
  - apply (create_twice_refused [py "L"] unit example_get_version_json
             example_download_version example_link_legacy_assets).
    apply list_elem_of_singleton. reflexivity.
  - reflexivity.
  - eapply (create_twice_refused [py "L"] unit example_get_version_json
              example_download_version example_link_legacy_assets
              (Some (py "1.8.9")) (py "My Profile") empty_state);
      [| reflexivity].
    reflexivity.
Defined.

Section Deleting.
Variable LOCALAPPDATA : path.

Lemma delete_profile_dir name st :
  fs st !! (PROFILES_DIRECTORY LOCALAPPDATA /: format_name name) = Some Dir ->
  delete_profile LOCALAPPDATA name st = (inr tt, after_delete LOCALAPPDATA name st).
Proof.
  intros Hdir. unfold delete_profile.
  erewrite bind_ok; cycle 1.
  { apply on_fs_ok. unfold rmtree. by rewrite Hdir. }
  unfold after_delete. cbn [profiles set_fs].
  case_bool_decide; reflexivity.
Qed.

Lemma delete_profile_missing name st :
  fs st !! (PROFILES_DIRECTORY LOCALAPPDATA /: format_name name) = None ->
  delete_profile LOCALAPPDATA name st
  = (inl (FileNotFoundError (PROFILES_DIRECTORY LOCALAPPDATA /: format_name name)),
     st).
Proof.
  intros Hdir. unfold delete_profile.
  erewrite bind_err; [done |].
  apply on_fs_err. unfold rmtree. by rewrite Hdir.
Qed.

(** C5, amended: [delete_profile] sanitizes the name and, when the
    directory of the profile exists, returns without raising after it has
    removed that directory with everything below it and nothing else; when
    the sanitized name is registered its first occurrence is removed from
    the registry and the window reloads, and when it is not registered the
    registry is left as it is. *)
Theorem delete_profile_removes (name : str) (st : state) :
  fs st !! (PROFILES_DIRECTORY LOCALAPPDATA /: format_name name) = Some Dir ->
  exists st',
    delete_profile LOCALAPPDATA name st = (inr tt, st')
    /\ (forall q, (PROFILES_DIRECTORY LOCALAPPDATA /: format_name name)
                    `prefix_of` q -> fs st' !! q = None)
    /\ (forall q, ¬ (PROFILES_DIRECTORY LOCALAPPDATA /: format_name name)
                      `prefix_of` q -> fs st' !! q = fs st !! q)
    /\ requests st' = requests st
    /\ (format_name name ∈ profiles st ->
        profiles st' = list_remove (format_name name) (profiles st)
        /\ reloads st' = S (reloads st))
    /\ (format_name name ∉ profiles st ->
        profiles st' = profiles st /\ reloads st' = reloads st).
Proof.
  intros Hdir. exists (after_delete LOCALAPPDATA name st).
  split; [by apply delete_profile_dir |].
  unfold after_delete. cbn [fs requests profiles reloads].
  split; [| split; [| split; [done |] ] ].
  - intros q Hq. apply map_lookup_filter_None. right. intros n _ Hn. by apply Hn.
  - intros q Hq. destruct (fs st !! q) as [n |] eqn:Hn.
    + by apply map_lookup_filter_Some.
    + apply map_lookup_filter_None. by left.
  - split; intros Hreg.
    + by rewrite !bool_decide_eq_true_2.
    + by rewrite !bool_decide_eq_false_2.
Qed.
End Deleting.

Lemma delete_profile_removes_witness :
  exists st',
    delete_profile [py "L"] (py " Mine ") example_profile_state = (inr tt, st')
    /\ fs st' !! [py "L"; py "MyMinecraftLauncher"; py "profiles"; py "Mine";
                  py ".VERSION"] = None
    /\ profiles st' = [].
Proof.
  destruct (delete_profile_removes [py "L"] (py " Mine ") example_profile_state
              eq_refl) as (st' & Hrun & Hgone & _ & _ & Hreg & _).
  exists st'. split; [exact Hrun |]. split.
  - apply Hgone. by exists [py ".VERSION"].
  - apply Hreg. apply list_elem_of_singleton. reflexivity.
Defined.

(** C5 as stated fails: on a name that is not registered, [delete_profile]
    raises when there is no directory of that name, and removes the
    directory when there is one. *)
Lemma delete_profile_unregistered_counterexample :
  (format_name (py "ghost") ∉ profiles empty_state)
  /\ delete_profile [py "L"] (py "ghost") empty_state
     = (inl (FileNotFoundError
               [py "L"; py "MyMinecraftLauncher"; py "profiles"; py "ghost"]),
        empty_state)
  /\ (format_name (py "half") ∉ profiles example_leftover_state)
  /\ fst (delete_profile [py "L"] (py "half") example_leftover_state) = inr tt
  /\ fs (snd (delete_profile [py "L"] (py "half") example_leftover_state))
     <> fs example_leftover_state.
Proof.
  split; [by intros ?%elem_of_nil |].
  split; [reflexivity |].
  split; [by intros ?%elem_of_nil |].
  split; [reflexivity |].
  rewrite (delete_profile_dir [py "L"] (py "half") example_leftover_state eq_refl).
  intros Heq.
  apply (f_equal (fun f => f !! [py "L"; py "MyMinecraftLauncher"; py "profiles";
                                 py "half"])) in Heq.
  cbn [snd after_delete fs] in Heq.
  rewrite map_lookup_filter_None_2 in Heq; [discriminate |].
  right. intros n _ Hn. apply Hn. reflexivity.
Qed.

(** * Further properties *)

(** ** Rules *)

(** X1: the first rule that names windows decides the evaluation, whatever
    the rules before it set and whatever follows it: the result is true
    when that rule allows and false when it disallows. *)
Theorem allowed_by_rules_first_platform_rule before r after :
  Forall (fun x => ~ platform_rule x) before ->
  platform_rule r ->
  allowed_by_rules (before ++ r :: after)
  = bool_decide (action r = py "allow").
Proof. intros. by apply allowed_by_rules_short_circuit. Qed.

Lemma allowed_by_rules_first_platform_rule_witness :
  allowed_by_rules
    [ {| action := py "allow"; os := None |};
      {| action := py "disallow"; os := Some {| name := py "windows" |} |};
      {| action := py "allow"; os := Some {| name := py "windows" |} |} ]
  = false.
Proof.
  apply (allowed_by_rules_first_platform_rule
           [ {| action := py "allow"; os := None |} ]
           {| action := py "disallow"; os := Some {| name := py "windows" |} |}
           [ {| action := py "allow"; os := Some {| name := py "windows" |} |} ]).
  - constructor; [| constructor]. intros [_ (o & [=] & _)].
  - split; [by right |]. eexists. split; reflexivity.
Defined.

(** X2: when no rule names windows, the last rule without OS constraint
    decides: the result is true when it allows and false when it
    disallows. *)
Theorem allowed_by_rules_last_unconditional_rule before r after :
  Forall (fun x => ~ platform_rule x) (before ++ r :: after) ->
  unconditional_rule r ->
  Forall (fun x => ~ unconditional_rule x) after ->
  allowed_by_rules (before ++ r :: after)
  = bool_decide (action r = py "allow").
Proof. intros. by apply allowed_by_rules_last_unconditional. Qed.

Lemma allowed_by_rules_last_unconditional_rule_witness :
  allowed_by_rules
    [ {| action := py "allow"; os := None |};
      {| action := py "disallow"; os := None |};
      {| action := py "allow"; os := Some {| name := py "osx" |} |} ]
  = false.
Proof.
  apply (allowed_by_rules_last_unconditional_rule
           [ {| action := py "allow"; os := None |} ]
           {| action := py "disallow"; os := None |}
           [ {| action := py "allow"; os := Some {| name := py "osx" |} |} ]).
  - repeat constructor; intros [_ (o & [=] & ?)]. subst. discriminate.
  - split; [by right | reflexivity].
  - constructor; [| constructor]. intros [_ [=]].
Defined.

Lemma allowed_step_irrelevant x flag rest :
  relevant_rule x = false ->
  allowed_by_rules_loop flag (x :: rest) = allowed_by_rules_loop flag rest.
Proof.
  unfold relevant_rule. simpl.
  destruct (bool_decide (action x = py "allow")),
    (bool_decide (action x = py "disallow")), (os x) as [o |];
    simpl; try done;
    by destruct (bool_decide (name o = py "windows")).
Qed.

(** X3: rules for other platforms and rules with an action other than allow
    and disallow have no effect: removing them from the list does not
    change the result. *)
Theorem allowed_by_rules_ignores_irrelevant (rules : list Rule) :
  allowed_by_rules rules = allowed_by_rules (List.filter relevant_rule rules).
Proof.
  unfold allowed_by_rules. generalize false as flag.
  induction rules as [| x rules IH]; intros flag; [done |].
  cbn [List.filter]. destruct (relevant_rule x) eqn:Hx.
  - unfold relevant_rule in Hx. simpl.
    destruct (bool_decide (action x = py "allow")),
      (bool_decide (action x = py "disallow")), (os x) as [o |];
      simpl in *; try done;
      try (destruct (bool_decide (name o = py "windows")); try done);
      apply IH.
  - rewrite allowed_step_irrelevant by done. apply IH.
Qed.

(** ** Library URLs *)

(** X4: [get_library_urls] of a list put together from two lists is the
    URLs of the first followed by the URLs of the second, so the call on one
    library, as [download_libraries] makes it before extracting, gives the
    part of the whole list that belongs to that library. *)
Theorem get_library_urls_concat (args1 args2 : list Library) :
  get_library_urls (args1 ++ args2)
  = get_library_urls args1 ++ get_library_urls args2.
Proof. by rewrite !get_library_urls_flat_map, flat_map_app. Qed.

(** X5: a URL is in the result exactly when some library of the list that
    is not rejected has it as its windows native artifact or as its main
    artifact; and there are at most two URLs per library. *)
Theorem get_library_urls_elem_of (args : list Library) (u : str) :
  (u ∈ get_library_urls args <->
   exists library a,
     library ∈ args /\ rejected library = false
     /\ (native_artifact library = Some a
         \/ artifact (downloads library) = Some a)
     /\ url a = u)
  /\ (length (get_library_urls args) <= 2 * length args)%nat.
Proof.
  rewrite get_library_urls_flat_map. split.
  - rewrite list_elem_of_In, in_flat_map. split.
    + intros (library & Hin & Hu). apply list_elem_of_In in Hin.
      unfold entry_urls in Hu.
      destruct (rejected library) eqn:Hr; [by destruct Hu |].
      apply in_app_or in Hu as [Hu | Hu].
      * destruct (native_artifact library) as [a |] eqn:Ha; [| by destruct Hu].
        destruct Hu as [<- | []]. exists library, a. eauto.
      * destruct (artifact (downloads library)) as [a |] eqn:Ha;
          [| by destruct Hu].
        destruct Hu as [<- | []]. exists library, a. eauto.
    + intros (library & a & Hin & Hr & Ha & <-).
      exists library. split; [by apply list_elem_of_In |].
      unfold entry_urls. rewrite Hr. apply in_or_app.
      destruct Ha as [-> | ->]; [left | right]; by left.
  - induction args as [| library args IH]; [done |].
    cbn [flat_map]. rewrite length_app. cbn [length].
    assert (length (entry_urls library) <= 2)%nat; [| lia].
    unfold entry_urls.
    destruct (rejected library), (native_artifact library),
      (artifact (downloads library)); simpl; lia.
Qed.

(** ** Names *)

Lemma lstrip_length s : (length (lstrip s) <= length s)%nat.
Proof.
  induction s as [| c r IH]; simpl; [done |].
  destruct (isspace c); simpl; lia.
Qed.

Lemma strip_length s : (length (strip s) <= length s)%nat.
Proof.
  unfold strip, rstrip. rewrite length_rev.
  etrans; [apply lstrip_length |]. rewrite length_rev. apply lstrip_length.
Qed.

Lemma lstrip_nil s : lstrip s = [] <-> forallb isspace s = true.
Proof.
  induction s as [| c r IH]; simpl; [done |].
  destruct (isspace c); simpl; [done |]. split; discriminate.
Qed.

Lemma strip_nil s : strip s = [] <-> forallb isspace s = true.
Proof.
  unfold strip, rstrip. split.
  - intros H. apply (f_equal (@rev _)) in H. rewrite rev_involutive in H.
    simpl in H. apply lstrip_nil in H.
    destruct (lstrip_suffix s) as [w Hw].
    destruct (lstrip s) as [| c r] eqn:Hl; [by apply lstrip_nil |].
    exfalso. pose proof (lstrip_head_ok s) as Hh. rewrite Hl in Hh. simpl in Hh.
    rewrite forallb_forall in H. specialize (H c).
    rewrite H in Hh; [done |]. apply in_rev. rewrite rev_involutive. by left.
  - intros H. apply lstrip_nil in H. by rewrite H.
Qed.

(** X6: [format_name] never returns the parent directory name [..], never
    returns a name longer than its input, and the name it returns neither
    starts nor ends with white space. *)
Theorem format_name_safe (s : str) :
  format_name s <> py ".."
  /\ (length (format_name s) <= length s)%nat
  /\ head_ok (format_name s)
  /\ head_ok (rev (format_name s)).
Proof.
  rewrite format_name_unfold. pose proof (strip_length s) as Hlen.
  case_bool_decide as Hs.
  - rewrite Hs in Hlen. by repeat split.
  - assert (Hmap : List.map sanitize (strip s) <> py "..").
    { intros Hd. apply Hs.
      destruct (strip s) as [| a [| b [| ? ?]]]; try discriminate.
      revert Hd. cbn [List.map]. intros [= Ha Hb]. revert Ha Hb.
      unfold sanitize. repeat case_match; try discriminate; by intros -> ->. }
    split; [done |]. split; [by rewrite length_map |].
    rewrite <- (strip_map sanitize) by apply isspace_sanitize.
    apply strip_head_ok.
Qed.

(** X7: [format_name] returns the empty name exactly for the names made of
    white space only (the empty name among them). *)
Theorem format_name_empty (s : str) :
  format_name s = [] <-> forallb isspace s = true.
Proof.
  rewrite format_name_unfold, <- strip_nil. case_bool_decide as Hs.
  - rewrite Hs. split; discriminate.
  - split; [| by intros ->]. by intros ?%map_eq_nil.
Qed.

(** ** Templates *)

Lemma format_template_from_plain {V} (to_str : V -> str) kwargs s result :
  ch "$" ∉ s ->
  format_template_from to_str kwargs Outer result s = inr (result ++ s).
Proof.
  revert result. induction s as [| c s IH]; intros result Hs;
    cbn [format_template_from].
  - by rewrite app_nil_r.
  - apply not_elem_of_cons in Hs as [Hc Hs].
    destruct (N.eqb_spec c (ch "$")); [done |].
    rewrite IH by done. by rewrite <- app_assoc.
Qed.

Lemma format_template_plain_prefix {V} (to_str : V -> str) kwargs before s :
  ch "$" ∉ before ->
  format_template to_str (before ++ s) kwargs
  = sum_map id (app before) (format_template to_str s kwargs).
Proof.
  intros Hb. induction before as [| c before IH]; cbn [app].
  - by destruct (format_template to_str s kwargs).
  - apply not_elem_of_cons in Hb as [Hc Hb].
    rewrite format_template_plain by done. rewrite IH by done.
    by destruct (format_template to_str s kwargs).
Qed.

(** X8: a string without dollar is returned as it is, whatever the table
    holds. *)
Theorem format_template_no_dollar {V} (to_str : V -> str)
    (kwargs : gmap str V) (s : str) :
  ch "$" ∉ s -> format_template to_str s kwargs = inr s.
Proof. intros. unfold format_template. by rewrite format_template_from_plain. Qed.

Lemma format_template_no_dollar_witness :
  format_template id (py "--demo") (∅ : gmap str str) = inr (py "--demo").
Proof.
  apply (format_template_no_dollar id ∅ (py "--demo")).
  intros H. by repeat (apply elem_of_cons in H as [? | H]; [done |]);
    apply elem_of_nil in H.
Defined.

(** X9: text without dollar, then a dollar, an opening brace, a key without
    closing brace and a closing brace: the placeholder is replaced by the
    text of the value bound to the key and the rest of the string is
    formatted after it; when the key is not bound the call raises
    [KeyError] with that key, whatever follows. *)
Theorem format_template_substitutes {V} (to_str : V -> str)
    (kwargs : gmap str V) (before key rest : str) :
  ch "$" ∉ before -> ch "}" ∉ key ->
  format_template to_str (before ++ py "${" ++ key ++ ch "}" :: rest) kwargs
  = match kwargs !! key with
    | Some v =>
        sum_map id (app (before ++ to_str v))
          (format_template to_str rest kwargs)
    | None => inl (KeyError (KStr key))
    end.
Proof.
  intros Hb Hk. rewrite format_template_plain_prefix by done.
  rewrite format_template_placeholder by done.
  destruct (kwargs !! key) as [v |]; [| done].
  destruct (format_template to_str rest kwargs); simpl; [done |].
  by rewrite <- app_assoc.
Qed.

Lemma format_template_substitutes_witness :
  format_template id (py "--username ${auth_player_name} --demo")
    ({[ py "auth_player_name" := py "Player" ]} : gmap str str)
  = inr (py "--username Player --demo").
Proof.
  assert (Hb : ch "$" ∉ py "--username ").
  { intros H. by repeat (apply elem_of_cons in H as [? | H]; [done |]);
      apply elem_of_nil in H. }
  assert (Hk : ch "}" ∉ py "auth_player_name").
  { intros H. by repeat (apply elem_of_cons in H as [? | H]; [done |]);
      apply elem_of_nil in H. }
  exact (format_template_substitutes id
           ({[ py "auth_player_name" := py "Player" ]} : gmap str str)
           (py "--username ") (py "auth_player_name") (py " --demo") Hb Hk).
Defined.

(** X10: a placeholder that is opened and not closed before the string
    ends raises the exception with the text [Format should be terminated.],
    whatever came before it and whatever the table holds. *)
Theorem format_template_unclosed {V} (to_str : V -> str)
    (kwargs : gmap str V) (before key : str) :
  ch "$" ∉ before -> ch "}" ∉ key ->
  format_template to_str (before ++ py "${" ++ key) kwargs
  = inl (Exception (py "Format should be terminated.")).
Proof.
  intros Hb Hk. rewrite format_template_plain_prefix by done.
  by rewrite format_template_unterminated.
Qed.

Lemma format_template_unclosed_witness :
  format_template id (py "--version ${version_name")
    ({[ py "version_name" := py "1.8.9" ]} : gmap str str)
  = inl (Exception (py "Format should be terminated.")).
Proof.
  assert (Hb : ch "$" ∉ py "--version ").
  { intros H. by repeat (apply elem_of_cons in H as [? | H]; [done |]);
      apply elem_of_nil in H. }
  assert (Hk : ch "}" ∉ py "version_name").
  { intros H. by repeat (apply elem_of_cons in H as [? | H]; [done |]);
      apply elem_of_nil in H. }
  exact (format_template_unclosed id
           ({[ py "version_name" := py "1.8.9" ]} : gmap str str)
           (py "--version ") (py "version_name") Hb Hk).
Defined.

(** X11: a dollar followed by a character other than the opening brace is
    copied together with that character, and formatting goes on after the
    two: the character after a dollar is never read as the start of
    something else, not even when it is a dollar. *)
Theorem format_template_dollar_pair {V} (to_str : V -> str)
    (kwargs : gmap str V) (c : char) (rest : str) :
  c <> ch "{" ->
  format_template to_str (ch "$" :: c :: rest) kwargs
  = sum_map id (fun r => ch "$" :: c :: r) (format_template to_str rest kwargs).
Proof. apply format_template_dollar_other. Qed.

Lemma format_template_dollar_pair_witness :
  format_template id (py "$5 ${n}") ({[ py "n" := py "x" ]} : gmap str str)
  = inr (py "$5 x").
Proof.
  rewrite (format_template_dollar_pair id
             ({[ py "n" := py "x" ]} : gmap str str) (ch "5") (py " ${n}"))
    by discriminate.
  reflexivity.
Defined.

Lemma format_template_from_errors {V} (to_str : V -> str) kwargs s :
  forall pos result e,
    format_template_from to_str kwargs pos result s = inl e ->
    e = StopIteration
    \/ e = Exception (py "Format should be terminated.")
    \/ exists key, e = KeyError (KStr key) /\ kwargs !! key = None.
Proof.
  induction s as [| c s IH]; intros pos result e; cbn [format_template_from].
  - destruct pos; intros [=]; auto.
  - destruct pos as [| | key].
    + destruct (c =? ch "$"); apply IH.
    + destruct (c =? ch "{"); apply IH.
    + destruct (c =? ch "}"); [| apply IH].
      destruct (kwargs !! key) eqn:Hk; [apply IH |].
      intros [= <-]. right. right. by exists key.
Qed.

(** X12: [format_template] raises nothing but [StopIteration], the
    exception with the text [Format should be terminated.], and [KeyError]
    with a key that the table does not bind. *)
Theorem format_template_errors {V} (to_str : V -> str)
    (kwargs : gmap str V) (s : str) (e : exn) :
  format_template to_str s kwargs = inl e ->
  e = StopIteration
  \/ e = Exception (py "Format should be terminated.")
  \/ exists key, e = KeyError (KStr key) /\ kwargs !! key = None.
Proof. apply format_template_from_errors. Qed.

Lemma format_template_errors_witness :
  exists key,
    KeyError (KStr (py "who")) = KeyError (KStr key)
    /\ ({[ py "name" := py "Steve" ]} : gmap str str) !! key = None.
Proof.
  destruct (format_template_errors id
              ({[ py "name" := py "Steve" ]} : gmap str str)
              (py "${who}") (KeyError (KStr (py "who")))
              format_template_unknown_key)
    as [[=] | [[=] | H]].
  exact H.
Defined.

(** ** The user name *)

Lemma isspace_line_feed : isspace 10 = true.
Proof. reflexivity. Qed.

(** On a stripped text the line feed case of the dollar cannot arise. *)
Lemma username_match_strip text :
  username_match (strip text) = is_username (strip text).
Proof.
  unfold username_match.
  destruct (rev (strip text)) as [| c r] eqn:Hr; [by rewrite orb_false_r |].
  destruct (N.eqb_spec c 10) as [-> | Hc]; [| by rewrite orb_false_r].
  pose proof (proj2 (strip_head_ok text)) as Hh. rewrite Hr in Hh.
  simpl in Hh. by rewrite isspace_line_feed in Hh.
Qed.

(** X13: the Confirm handler accepts exactly the texts that, once stripped,
    are one to sixteen characters among the letters A to Z and a to z, the
    digits and the underscore; the user name then becomes the stripped text
    and the window reloads once; any other text leaves the user name and
    the state as they were and rings the bell. *)
Theorem on_confirm_username (text username : str) (st : state) :
  (is_username (strip text) = true ->
   _on_confirm text username st
   = (Destroyed, strip text,
      {| fs := fs st; requests := requests st; profiles := profiles st;
         reloads := S (reloads st) |}))
  /\ (is_username (strip text) = false ->
      _on_confirm text username st = (Bell, username, st))
  /\ (forall name' st',
        _on_confirm text username st = (Destroyed, name', st') ->
        (1 <= length name' <= 16)%nat
        /\ Forall (fun c => word_char c = true) name').
Proof.
  unfold _on_confirm. rewrite username_match_strip.
  split; [by intros -> |]. split; [by intros -> |].
  intros name' st'. destruct (is_username (strip text)) eqn:Hu; [| by intros [=]].
  intros [= <- _]. unfold is_username in Hu.
  apply andb_prop in Hu as [Hu Hall]. apply andb_prop in Hu as [H1 H16].
  apply Nat.leb_le in H1, H16. split; [lia |].
  apply Forall_forall. intros c Hc. rewrite forallb_forall in Hall.
  by apply Hall, list_elem_of_In.
Qed.

Lemma on_confirm_username_witness :
  _on_confirm (py "  Steve_01 ") (py "Player") empty_state
  = (Destroyed, py "Steve_01",
     {| fs := ∅; requests := []; profiles := []; reloads := 1 |})
  /\ _on_confirm (py "two words") (py "Player") empty_state
     = (Bell, py "Player", empty_state).
Proof.
  split.
  - exact (proj1 (on_confirm_username (py "  Steve_01 ") (py "Player")
                    empty_state) eq_refl).
  - exact (proj1 (proj2 (on_confirm_username (py "two words") (py "Player")
                           empty_state)) eq_refl).
Defined.

(** ** The Java runtime: failures and a second call *)



Section JavaFailures.
Variables (TEMP LOCALAPPDATA : path).
Variable network : str -> response.
Variable zip_members : str -> option (list (path * node)).

Lemma java_zip_parent url :
  parent (java_zip_path TEMP url) = TEMP_DIRECTORY TEMP.
Proof.
  unfold java_zip_path. apply parent_div, plain_suffix. cbv. lia.
Qed.

Lemma java_dir_not_zip version dir url :
  JRE_DIRECTORIES LOCALAPPDATA version = Some dir ->
  dir <> java_zip_path TEMP url.
Proof.
  unfold JRE_DIRECTORIES, java_zip_path. intros Hdir.
  assert (Hlast : last dir = Some (py "bin")).
  { repeat case_match; simplify_eq;
      by rewrite (path_div_plain _ (py "bin")), last_snoc. }
  intros Heq. rewrite Heq in Hlast.
  rewrite path_div_plain in Hlast by (apply plain_suffix; cbv; lia).
  rewrite last_snoc in Hlast. injection Hlast as Hlast.
  apply (f_equal length) in Hlast. rewrite length_app in Hlast.
  cbv [py List.map list_ascii_of_string length] in Hlast. simpl in Hlast. lia.
Qed.

(** When the runtime directory is absent, the call is the download, the
    extraction and the removal of the archive. *)
Lemma download_java_absent version dir url st :
  JRE_DIRECTORIES LOCALAPPDATA version = Some dir ->
  JRE_DOWNLOAD_URLS version = Some url ->
  fs st !! dir = None ->
  download_java TEMP LOCALAPPDATA network zip_members version st
  = bind (download_to network url (java_zip_path TEMP url))
      (fun _ => bind (extract_zip zip_members (java_zip_path TEMP url)
                        (JAVA_DIRECTORY LOCALAPPDATA))
                  (fun _ => on_fs (unlink (java_zip_path TEMP url)))) st.
Proof.
  intros Hdir Hurl Hnone.
  unfold download_java, getitem. rewrite Hdir, Hurl. cbn beta iota.
  step_ret. erewrite bind_ok by by apply path_exists_false.
  cbn beta iota. by step_ret.
Qed.

(** X14: when the server cannot be reached, [download_java] raises after
    one request and the disk is as it was; when the answer breaks off while
    it is read, it raises and leaves an empty archive file in the temporary
    directory.  Either way the runtime directory is still absent. *)
Theorem download_java_network_failure (version : Z) (dir : path) (url : str)
    (st : state) :
  JRE_DIRECTORIES LOCALAPPDATA version = Some dir ->
  JRE_DOWNLOAD_URLS version = Some url ->
  fs st !! dir = None ->
  (network url = Unreachable ->
   download_java TEMP LOCALAPPDATA network zip_members version st
   = (inl (URLError url),
      {| fs := fs st; requests := requests st ++ [url];
         profiles := profiles st; reloads := reloads st |}))
  /\ (network url = Interrupted ->
      fs st !! TEMP_DIRECTORY TEMP = Some Dir ->
      fs st !! java_zip_path TEMP url <> Some Dir ->
      download_java TEMP LOCALAPPDATA network zip_members version st
      = (inl (IncompleteRead url),
         {| fs := <[java_zip_path TEMP url := File []]> (fs st);
            requests := requests st ++ [url];
            profiles := profiles st; reloads := reloads st |})
      /\ (<[java_zip_path TEMP url := File []]> (fs st)) !! dir = None).
Proof.
  intros Hdir Hurl Hnone.
  rewrite (download_java_absent version dir url) by done. split.
  - intros Hnet. erewrite bind_err; [done |].
    unfold download_to. erewrite bind_err; [done |].
    unfold urlopen. by rewrite Hnet.
  - intros Hnet Htemp Hnodir. split.
    + erewrite bind_err; [done |]. unfold download_to.
      erewrite bind_ok; [| unfold urlopen; by rewrite Hnet].
      erewrite bind_ok; cycle 1.
      { apply on_fs_ok. unfold open_w. cbn [fs].
        rewrite java_zip_parent, Htemp.
        by destruct (fs st !! java_zip_path TEMP url) as [[|?] |]. }
      by erewrite bind_err by reflexivity.
    + rewrite lookup_insert_ne; [done |].
      intros Heq. by eapply java_dir_not_zip.
Qed.

(** X15: when what the server sends is no zip archive, [download_java]
    raises [BadZipFile]; the file it wrote stays in the temporary directory
    (the removal of the archive is not reached) and the runtime directory is
    still absent. *)
Theorem download_java_bad_archive (version : Z) (dir : path) (url data : str)
    (st : state) :
  JRE_DIRECTORIES LOCALAPPDATA version = Some dir ->
  JRE_DOWNLOAD_URLS version = Some url ->
  fs st !! dir = None ->
  network url = Body data ->
  zip_members data = None ->
  fs st !! TEMP_DIRECTORY TEMP = Some Dir ->
  fs st !! java_zip_path TEMP url <> Some Dir ->
  exists st',
    download_java TEMP LOCALAPPDATA network zip_members version st
    = (inl (BadZipFile (java_zip_path TEMP url)), st')
    /\ fs st' !! java_zip_path TEMP url = Some (File data)
    /\ fs st' !! dir = None
    /\ requests st' = requests st ++ [url].
Proof.
  intros Hdir Hurl Hnone Hnet Hzip Htemp Hnodir.
  rewrite (download_java_absent version dir url) by done.
  eexists. split.
  - erewrite bind_ok; cycle 1.
    { apply download_to_ok; [done | done |]. by rewrite java_zip_parent. }
    erewrite bind_err; [done |].
    unfold extract_zip. cbn [fs]. by rewrite lookup_insert_eq, Hzip.
  - cbn [fs requests]. rewrite lookup_insert_eq. split; [done |].
    split; [| done]. rewrite lookup_insert_ne; [done |].
    intros Heq. by eapply java_dir_not_zip.
Qed.

End JavaFailures.

Lemma download_java_network_failure_witness :
  download_java [py "T"] [py "L"] (fun _ => Unreachable) example_zip_members 17
    example_temp_state
  = (inl (URLError (py "https://github.com/adoptium/temurin17-binaries/releases/download/jdk-17.0.9%2B9.1/OpenJDK17U-jre_x64_windows_hotspot_17.0.9_9.zip")),
     {| fs := fs example_temp_state;
        requests := [py "https://github.com/adoptium/temurin17-binaries/releases/download/jdk-17.0.9%2B9.1/OpenJDK17U-jre_x64_windows_hotspot_17.0.9_9.zip"];
        profiles := []; reloads := 0 |})
  /\ fst (download_java [py "T"] [py "L"] (fun _ => Interrupted)
            example_zip_members 17 example_temp_state)
     = inl (IncompleteRead (py "https://github.com/adoptium/temurin17-binaries/releases/download/jdk-17.0.9%2B9.1/OpenJDK17U-jre_x64_windows_hotspot_17.0.9_9.zip")).
Proof.
  split.
  - exact (proj1 (download_java_network_failure [py "T"] [py "L"]
                    (fun _ => Unreachable) example_zip_members 17 _ _
                    example_temp_state eq_refl eq_refl eq_refl) eq_refl).
  - destruct (proj2 (download_java_network_failure [py "T"] [py "L"]
                       (fun _ => Interrupted) example_zip_members 17 _ _
                       example_temp_state eq_refl eq_refl eq_refl)
                eq_refl eq_refl) as [Hrun _]; [discriminate |].
    by rewrite Hrun.
Defined.

Lemma download_java_bad_archive_witness :
  exists st',
    download_java [py "T"] [py "L"] example_network (fun _ => None) 8
      example_temp_state
    = (inl (BadZipFile
              [py "T"; py "MyMinecraftLauncher";
               py "OpenJDK8U-jre_x64_windows_hotspot_8u392b08.zip.zip"]), st')
    /\ fs st' !! [py "T"; py "MyMinecraftLauncher";
                  py "OpenJDK8U-jre_x64_windows_hotspot_8u392b08.zip.zip"]
       = Some (File (py "data")).
Proof.
  destruct (download_java_bad_archive [py "T"] [py "L"] example_network
              (fun _ => None) 8 _ _ (py "data") example_temp_state
              eq_refl eq_refl eq_refl eq_refl eq_refl eq_refl)
    as (st' & Hrun & Hfile & _); [discriminate |].
  exists st'. split; [exact Hrun | exact Hfile].
Defined.


(** ** The asset store: failures and the whole loop *)

Section AssetFailures.
Variable LOCALAPPDATA : path.

(** [download_asset] up to its test, when the shard directory can be made
    and the object is absent. *)
Lemma download_asset_absent network value st f :
  is_hash (hash value) ->
  makedirs_exist_ok
    (ASSET_OBJECTS_DIRECTORY LOCALAPPDATA /: take 2%nat (hash value)) (fs st)
  = inr f ->
  fs st !! asset_path LOCALAPPDATA (hash value) = None ->
  f !! asset_path LOCALAPPDATA (hash value) = None
  /\ f !! parent (asset_path LOCALAPPDATA (hash value)) = Some Dir
  /\ download_asset LOCALAPPDATA network value st
     = bind (download_to network (asset_url (hash value))
               (asset_path LOCALAPPDATA (hash value)))
         (fun _ => ret (asset_path LOCALAPPDATA (hash value))) (set_fs f st).
Proof.
  intros Hh Hmk Hnone.
  pose proof Hmk as (Hall & Hother & _)%makedirs_from_ok.
  assert (Hpath : f !! asset_path LOCALAPPDATA (hash value) = None).
  { rewrite Hother; [done |]. by apply asset_not_above. }
  split; [done |]. split.
  - rewrite asset_parent by done.
    eapply Forall_forall in Hall; [exact Hall |].
    apply in_prefixes_self. by apply is_hash_plain.
  - unfold download_asset.
    erewrite bind_ok by by apply on_fs_ok.
    by erewrite bind_ok by by apply path_exists_false.
Qed.

(** X17: when the answer of the server breaks off while it is read,
    [download_asset] raises and leaves an empty file at the path of the
    object; the next call takes that file for the object: it returns the
    path without any request, whatever the server would answer then. *)
Theorem download_asset_truncated (network network' : str -> response)
    (value : AssetObject) (st : state) (f : gmap path node) :
  is_hash (hash value) ->
  makedirs_exist_ok
    (ASSET_OBJECTS_DIRECTORY LOCALAPPDATA /: take 2%nat (hash value)) (fs st)
  = inr f ->
  fs st !! asset_path LOCALAPPDATA (hash value) = None ->
  network (asset_url (hash value)) = Interrupted ->
  let st1 :=
    {| fs := <[asset_path LOCALAPPDATA (hash value) := File []]> f;
       requests := requests st ++ [asset_url (hash value)];
       profiles := profiles st; reloads := reloads st |} in
  download_asset LOCALAPPDATA network value st
  = (inl (IncompleteRead (asset_url (hash value))), st1)
  /\ download_asset LOCALAPPDATA network' value st1
     = (inr (asset_path LOCALAPPDATA (hash value)), st1).
Proof.
  intros Hh Hmk Hnone Hnet st1.
  destruct (download_asset_absent network value st f Hh Hmk Hnone)
    as (Hpath & Hparent & ->).
  apply makedirs_from_ok in Hmk as (Hall & _ & _).
  split.
  - erewrite bind_err; [done |]. unfold download_to.
    erewrite bind_ok; [| unfold urlopen; by rewrite Hnet].
    erewrite bind_ok; cycle 1.
    { apply on_fs_ok. unfold open_w. cbn [fs set_fs].
      by rewrite Hpath, Hparent. }
    by erewrite bind_err by reflexivity.
  - apply download_asset_hit; [done | |]; unfold st1; cbn [fs].
    + unfold dirs_above. rewrite asset_parent by done.
      apply Forall_forall. intros q Hq. rewrite lookup_insert_ne.
      * by eapply Forall_forall in Hall.
      * intros <-. by apply asset_not_above in Hq.
    + by rewrite lookup_insert_eq.
Qed.

(** X18: when the server cannot be reached, [download_asset] raises after
    one request and places nothing at the path of the object; a later call,
    when the server answers, fetches the object and places it. *)
Theorem download_asset_retry (network network' : str -> response)
    (value : AssetObject) (st : state) (f : gmap path node) (data : str) :
  is_hash (hash value) ->
  makedirs_exist_ok
    (ASSET_OBJECTS_DIRECTORY LOCALAPPDATA /: take 2%nat (hash value)) (fs st)
  = inr f ->
  fs st !! asset_path LOCALAPPDATA (hash value) = None ->
  network (asset_url (hash value)) = Unreachable ->
  network' (asset_url (hash value)) = Body data ->
  let st1 :=
    {| fs := f; requests := requests st ++ [asset_url (hash value)];
       profiles := profiles st; reloads := reloads st |} in
  download_asset LOCALAPPDATA network value st
  = (inl (URLError (asset_url (hash value))), st1)
  /\ fs st1 !! asset_path LOCALAPPDATA (hash value) = None
  /\ download_asset LOCALAPPDATA network' value st1
     = (inr (asset_path LOCALAPPDATA (hash value)),
        {| fs := <[asset_path LOCALAPPDATA (hash value) := File data]> f;
           requests := requests st ++ [asset_url (hash value)]
                       ++ [asset_url (hash value)];
           profiles := profiles st; reloads := reloads st |}).
Proof.
  intros Hh Hmk Hnone Hnet Hnet' st1.
  destruct (download_asset_absent network value st f Hh Hmk Hnone)
    as (Hpath & Hparent & ->).
  pose proof Hmk as (Hall & _ & _)%makedirs_from_ok.
  split; [| split; [done |]].
  - erewrite bind_err; [done |]. unfold download_to.
    erewrite bind_err; [done |]. unfold urlopen. by rewrite Hnet.
  - rewrite (download_asset_miss LOCALAPPDATA network' value st1 f data);
      unfold st1; cbn [fs requests profiles reloads]; try done.
    + by rewrite <- app_assoc.
    + by apply makedirs_from_present.
Qed.
End AssetFailures.

Lemma download_asset_truncated_witness :
  exists st1,
    download_asset [py "L"] (fun _ => Interrupted) example_asset empty_state
    = (inl (IncompleteRead (asset_url (hash example_asset))), st1)
    /\ download_asset [py "L"] example_network example_asset st1
       = (inr (asset_path [py "L"] (hash example_asset)), st1).
Proof.
  eexists.
  exact (download_asset_truncated [py "L"] (fun _ => Interrupted)
           example_network example_asset empty_state _
           example_asset_is_hash eq_refl eq_refl eq_refl).
Defined.

Lemma download_asset_retry_witness :
  exists st1 st2,
    download_asset [py "L"] (fun _ => Unreachable) example_asset empty_state
    = (inl (URLError (asset_url (hash example_asset))), st1)
    /\ download_asset [py "L"] example_network example_asset st1
       = (inr (asset_path [py "L"] (hash example_asset)), st2)
    /\ fs st2 !! asset_path [py "L"] (hash example_asset)
       = Some (File (py "data")).
Proof.
  destruct (download_asset_retry [py "L"] (fun _ => Unreachable)
              example_network example_asset empty_state _ (py "data")
              example_asset_is_hash eq_refl eq_refl eq_refl eq_refl)
    as (Hfail & _ & Hretry).
  eexists. eexists. split; [exact Hfail |]. split; [exact Hretry |].
  cbn [fs]. apply lookup_insert_eq.
Defined.





Section AssetLoop.
Variable LOCALAPPDATA : path.
Variable network : str -> response.


End AssetLoop.


(** ** Profiles: blank names and the cleanup after a failure *)


Section BlankNames.
Variable LOCALAPPDATA : path.

(** X20: a name that [format_name] turns into the empty name or into the
    dot (a blank name, for one) does not name a directory of its own: the
    directory [delete_profile] removes for it is the profiles directory
    itself, with the directories of all profiles in it, while the names of
    those profiles stay in the registry. *)
Theorem delete_profile_blank_name (name : str) (st : state) :
  ~ plain (format_name name) ->
  fs st !! PROFILES_DIRECTORY LOCALAPPDATA = Some Dir ->
  format_name name ∉ profiles st ->
  exists st',
    delete_profile LOCALAPPDATA name st = (inr tt, st')
    /\ (forall q, PROFILES_DIRECTORY LOCALAPPDATA `prefix_of` q ->
                  fs st' !! q = None)
    /\ profiles st' = profiles st.
Proof.
  intros Hblank Hdir Hreg.
  assert (Hpath : PROFILES_DIRECTORY LOCALAPPDATA /: format_name name
                  = PROFILES_DIRECTORY LOCALAPPDATA).
  { unfold path_div at 1. by rewrite bool_decide_eq_false_2. }
  exists (after_delete LOCALAPPDATA name st). split.
  - apply delete_profile_dir. by rewrite Hpath.
  - unfold after_delete. cbn [fs profiles]. rewrite Hpath. split.
    + intros q Hq. apply map_lookup_filter_None. right. intros n _ Hn.
      by apply Hn.
    + by rewrite bool_decide_eq_false_2.
Qed.
End BlankNames.

Lemma delete_profile_blank_name_witness :
  exists st',
    delete_profile [py "L"] (py "   ") example_two_profiles_state
    = (inr tt, st')
    /\ fs st' !! [py "L"; py "MyMinecraftLauncher"; py "profiles"; py "A"]
       = None
    /\ profiles st' = [py "A"; py "B"].
Proof.
  destruct (delete_profile_blank_name [py "L"] (py "   ")
              example_two_profiles_state)
    as (st' & Hrun & Hgone & Hreg).
  - by intros [? _].
  - reflexivity.
  - intros H. by repeat (apply elem_of_cons in H as [? | H]; [done |]);
      apply elem_of_nil in H.
  - exists st'. split; [exact Hrun |]. split; [| exact Hreg].
    apply Hgone. by exists [py "A"].
Defined.


Section Cleanup.
Variable LOCALAPPDATA : path.
Variable VersionJson : Type.
Variable get_version_json : str -> M VersionJson.
Variable download_version : VersionJson -> M unit.
Variable link_legacy_assets : str -> VersionJson -> M unit.




End Cleanup.


(** ** Resolving and fetching a version *)

Section VersionFacts.
Variables (TEMP LOCALAPPDATA : path).
Variable network : str -> response.
Variable zip_members : str -> option (list (path * node)).
Variable manifest : list ManifestEntry.
Variable json_error : exn.
Variable load_version : str -> option VersionJson.
Variable dump_version : VersionJson -> str.
Variable load_index : str -> option (list (str * AssetObject)).
Variable dump_index : list (str * AssetObject) -> str.

Local Abbreviation resolve :=
  (get_version_json LOCALAPPDATA network manifest json_error load_version
     dump_version).

Local Abbreviation version_json_path id :=
  (VERSIONS_DIRECTORY LOCALAPPDATA /: (id ++ py ".json")).

(** X22: for an id that has no cached descriptor and is not in the
    manifest, [get_version_json] raises [StopIteration] and changes
    nothing: no request, no file. *)
Theorem get_version_json_unknown (id : str) (st : state) :
  fs st !! version_json_path id = None ->
  Forall (fun v => entry_id v <> id) manifest ->
  resolve id st = (inl StopIteration, st).
Proof.
  intros Hnone Hall. unfold get_version_json.
  erewrite bind_ok by by apply path_exists_false.
  cbn beta iota. erewrite bind_err; [done |].
  unfold manifest_url.
  destruct (List.find _ manifest) as [v |] eqn:Hfind; [| done].
  apply find_some in Hfind as [Hin Hid]. apply bool_decide_eq_true in Hid.
  eapply Forall_forall in Hall; [| by apply list_elem_of_In]. done.
Qed.

Lemma version_json_parent id :
  parent (version_json_path id) = VERSIONS_DIRECTORY LOCALAPPDATA.
Proof. apply parent_div, plain_suffix. cbv. lia. Qed.

(** No cached descriptor: one request, and the descriptor is written. *)
Lemma get_version_json_miss id entry text version_json st :
  fs st !! version_json_path id = None ->
  List.find (fun v => bool_decide (entry_id v = id)) manifest = Some entry ->
  network (entry_url entry) = Body text ->
  load_version text = Some version_json ->
  fs st !! VERSIONS_DIRECTORY LOCALAPPDATA = Some Dir ->
  resolve id st
  = (inr version_json,
     {| fs := <[version_json_path id := File (dump_version version_json)]>
                (fs st);
        requests := requests st ++ [entry_url entry];
        profiles := profiles st; reloads := reloads st |}).
Proof.
  intros Hnone Hfind Hnet Hload Hdir. unfold get_version_json.
  erewrite bind_ok by by apply path_exists_false.
  cbn beta iota. unfold manifest_url. rewrite Hfind. step_ret.
  erewrite bind_ok; [| unfold urlopen; by rewrite Hnet].
  cbn [read]. step_ret. unfold json_load. rewrite Hload. step_ret.
  erewrite bind_ok; cycle 1.
  { apply on_fs_ok. unfold open_w. cbn [fs].
    by rewrite Hnone, version_json_parent, Hdir. }
  erewrite bind_ok; cycle 1.
  { apply on_fs_ok. unfold write. reflexivity. }
  unfold ret, set_fs. cbn [fs requests profiles reloads].
  by rewrite insert_insert_eq.
Qed.

(** X23: for an id without cached descriptor, [get_version_json] requests
    the URL of the first manifest entry with that id, returns the
    descriptor it reads and writes it to the versions directory; when the
    written text reads back as the same descriptor, a second call returns
    it from the file, with no request and no change. *)
Theorem get_version_json_caches (id : str) (entry : ManifestEntry)
    (text : str) (version_json : VersionJson) (st : state) :
  fs st !! version_json_path id = None ->
  List.find (fun v => bool_decide (entry_id v = id)) manifest = Some entry ->
  network (entry_url entry) = Body text ->
  load_version text = Some version_json ->
  fs st !! VERSIONS_DIRECTORY LOCALAPPDATA = Some Dir ->
  load_version (dump_version version_json) = Some version_json ->
  let st1 :=
    {| fs := <[version_json_path id := File (dump_version version_json)]>
               (fs st);
       requests := requests st ++ [entry_url entry];
       profiles := profiles st; reloads := reloads st |} in
  resolve id st = (inr version_json, st1)
  /\ resolve id st1 = (inr version_json, st1).
Proof.
  intros Hnone Hfind Hnet Hload Hdir Hround st1.
  split; [by eapply get_version_json_miss |].
  unfold get_version_json.
  erewrite bind_ok; cycle 1.
  { apply path_exists_true. unfold st1. cbn [fs]. by rewrite lookup_insert_eq. }
  cbn beta iota. erewrite bind_ok; cycle 1.
  { unfold read_file, st1. cbn [fs]. by rewrite lookup_insert_eq. }
  unfold json_load. by rewrite Hround.
Qed.

Local Abbreviation fetch :=
  (download_version TEMP LOCALAPPDATA network zip_members json_error
     load_index dump_index).

Lemma download_version_no_runtime version_json data st :
  v_majorVersion version_json <> 8%Z ->
  v_majorVersion version_json <> 17%Z ->
  fs st !! (VERSIONS_DIRECTORY LOCALAPPDATA /: (v_id version_json ++ py ".jar"))
  = None ->
  fs st !! VERSIONS_DIRECTORY LOCALAPPDATA = Some Dir ->
  network (v_client_url version_json) = Body data ->
  fetch version_json st
  = (inl (KeyError (KInt (v_majorVersion version_json))),
     {| fs := <[VERSIONS_DIRECTORY LOCALAPPDATA
                /: (v_id version_json ++ py ".jar") := File data]> (fs st);
        requests := requests st ++ [v_client_url version_json];
        profiles := profiles st; reloads := reloads st |}).
Proof.
  intros H8 H17 Hnone Hdir Hnet. unfold download_version.
  erewrite bind_ok by by apply path_exists_false.
  cbn beta iota. erewrite bind_ok; cycle 1.
  { apply download_to_ok; [done | by rewrite Hnone |].
    rewrite parent_div; [done |]. apply plain_suffix. cbv. lia. }
  erewrite bind_err; [done |]. by apply download_java_unsupported.
Qed.

(** X24: for a descriptor whose Java major version is neither 8 nor 17,
    [download_version] raises [KeyError] with that version after it has
    downloaded the client jar, when that was absent, and before any library
    or asset is requested. *)
Theorem download_version_unsupported_runtime (version_json : VersionJson)
    (st : state) :
  v_majorVersion version_json <> 8%Z ->
  v_majorVersion version_json <> 17%Z ->
  let client_path :=
    VERSIONS_DIRECTORY LOCALAPPDATA /: (v_id version_json ++ py ".jar") in
  (is_Some (fs st !! client_path) ->
   fetch version_json st
   = (inl (KeyError (KInt (v_majorVersion version_json))), st))
  /\ (forall data,
        fs st !! client_path = None ->
        fs st !! VERSIONS_DIRECTORY LOCALAPPDATA = Some Dir ->
        network (v_client_url version_json) = Body data ->
        fetch version_json st
        = (inl (KeyError (KInt (v_majorVersion version_json))),
           {| fs := <[client_path := File data]> (fs st);
              requests := requests st ++ [v_client_url version_json];
              profiles := profiles st; reloads := reloads st |})).
Proof.
  intros H8 H17 client_path. split.
  - intros Hjar. unfold download_version. fold client_path.
    erewrite bind_ok by by apply path_exists_true.
    cbn beta iota. step_ret. erewrite bind_err; [done |].
    by apply download_java_unsupported.
  - intros data Hnone Hdir Hnet. by apply download_version_no_runtime.
Qed.

Local Abbreviation fetch_library :=
  (download_library LOCALAPPDATA network).

(** X25: once [download_libraries] has a library file, a URL with the same
    last segment is not fetched: after an iteration of the first loop that
    returned, the iteration for any URL with the same file name (the same
    URL among them) makes no request and changes nothing. *)
Theorem download_library_same_name (url url' : str) (st st1 : state) :
  fetch_library url st = (inr tt, st1) ->
  split_last (ch "/") url' = split_last (ch "/") url ->
  fetch_library url' st1 = (inr tt, st1).
Proof.
  unfold download_library. intros Hrun ->.
  set (p := LIBRARIES_DIRECTORY LOCALAPPDATA /: split_last (ch "/") url) in *.
  assert (Hp : is_Some (fs st1 !! p)).
  { destruct (fs st !! p) as [n |] eqn:Hst.
    - erewrite bind_ok in Hrun
        by (apply path_exists_true; by rewrite Hst).
      cbn beta iota in Hrun. injection Hrun as <-. by rewrite Hst.
    - erewrite bind_ok in Hrun by by apply path_exists_false.
      cbn beta iota in Hrun.
      apply download_to_inv in Hrun as (data & _ & ->). cbn [fs].
      by rewrite lookup_insert_eq. }
  by erewrite bind_ok by by apply path_exists_true.
Qed.

Lemma download_asset_objects_hits objects st :
  Forall (fun kv => is_hash (hash kv.2)
                    /\ dirs_above (fs st) (asset_path LOCALAPPDATA (hash kv.2))
                    /\ is_Some (fs st !! asset_path LOCALAPPDATA (hash kv.2)))
    objects ->
  download_asset_objects LOCALAPPDATA network objects st = (inr tt, st).
Proof.
  induction 1 as [| [k v] rest (Hh & Hdirs & Hp) _ IH];
    cbn [download_asset_objects]; [done |].
  erewrite bind_ok by by apply download_asset_hit.
  apply IH.
Qed.

Local Abbreviation fetch_assets :=
  (download_assets LOCALAPPDATA network json_error load_index dump_index).

(** X26: with the asset index in its file and every object of the index in
    the store, [download_assets] makes no request and leaves the disk as it
    is. *)
Theorem download_assets_warm (version_json : VersionJson) (text : str)
    (objects : list (str * AssetObject)) (st : state) :
  fs st !! (ASSET_INDEXES_DIRECTORY LOCALAPPDATA
            /: (index_id (v_assetIndex version_json) ++ py ".json"))
  = Some (File text) ->
  load_index text = Some objects ->
  Forall (fun kv => is_hash (hash kv.2)
                    /\ dirs_above (fs st) (asset_path LOCALAPPDATA (hash kv.2))
                    /\ is_Some (fs st !! asset_path LOCALAPPDATA (hash kv.2)))
    objects ->
  fetch_assets version_json st = (inr tt, st).
Proof.
  intros Hfile Hload Hall. unfold download_assets.
  erewrite bind_ok by (apply path_exists_true; by rewrite Hfile).
  cbn beta iota. erewrite bind_ok; cycle 1.
  { erewrite bind_ok; [| unfold read_file; by rewrite Hfile].
    unfold json_load. by rewrite Hload. }
  by apply download_asset_objects_hits.
Qed.
End VersionFacts.

Lemma get_version_json_unknown_witness :
  get_version_json [py "L"] example_version_network example_manifest
    StopIteration example_load_version example_dump_version (py "b1.0")
    example_versions_state
  = (inl StopIteration, example_versions_state).
Proof.
  apply get_version_json_unknown; [reflexivity |].
  repeat constructor; discriminate.
Defined.

Lemma get_version_json_caches_witness :
  exists st1,
    get_version_json [py "L"] example_version_network example_manifest
      StopIteration example_load_version example_dump_version (py "1.17.1")
      example_versions_state
    = (inr example_version, st1)
    /\ get_version_json [py "L"] example_version_network example_manifest
         StopIteration example_load_version example_dump_version (py "1.17.1")
         st1
       = (inr example_version, st1)
    /\ requests st1 = [py "https://m/v/1.17.1.json"].
Proof.
  destruct (get_version_json_caches [py "L"] example_version_network
              example_manifest StopIteration example_load_version
              example_dump_version (py "1.17.1") _ (py "{1.17.1}")
              example_version example_versions_state
              eq_refl eq_refl eq_refl eq_refl eq_refl eq_refl)
    as [Hfirst Hsecond].
  eexists. split; [exact Hfirst |]. split; [exact Hsecond | reflexivity].
Defined.

Lemma download_version_unsupported_runtime_witness :
  download_version [py "T"] [py "L"] example_network example_zip_members
    StopIteration example_load_index (fun _ => py "{index}") example_version
    example_versions_state
  = (inl (KeyError (KInt 16)),
     {| fs := <[ [py "L"; py "MyMinecraftLauncher"; py "versions";
                  py "1.17.1.jar"] := File (py "data") ]>
                (fs example_versions_state);
        requests := [py "https://m/client/1.17.1/client.jar"];
        profiles := []; reloads := 1 |}).
Proof.
  refine (proj2 (download_version_unsupported_runtime [py "T"] [py "L"]
                   example_network example_zip_members StopIteration
                   example_load_index (fun _ => py "{index}") example_version
                   example_versions_state _ _)
            (py "data") eq_refl eq_refl eq_refl); discriminate.
Defined.

Lemma download_library_same_name_witness :
  exists st1,
    download_library [py "L"] example_network (py "https://h/b/B.jar")
      example_versions_state = (inr tt, st1)
    /\ download_library [py "L"] example_network (py "https://mirror/x/B.jar")
         st1 = (inr tt, st1)
    /\ requests st1 = [py "https://h/b/B.jar"].
Proof.
  eexists. split; [reflexivity |]. split; [| reflexivity].
  eapply (download_library_same_name [py "L"] example_network
            (py "https://h/b/B.jar") (py "https://mirror/x/B.jar")
            example_versions_state); reflexivity.
Defined.

Lemma download_assets_warm_witness :
  download_assets [py "L"] example_network StopIteration example_load_index
    (fun _ => py "{index}") example_version example_warm_state
  = (inr tt, example_warm_state).
Proof.
  eapply (download_assets_warm [py "L"] example_network StopIteration
            example_load_index (fun _ => py "{index}") example_version
            (py "{index}")); [reflexivity | reflexivity |].
  assert (Hobj : is_hash (hash example_asset)
                 /\ dirs_above (fs example_warm_state)
                      (asset_path [py "L"] (hash example_asset))
                 /\ is_Some (fs example_warm_state
                             !! asset_path [py "L"] (hash example_asset))).
  { split; [apply example_asset_is_hash |]. split.
    - repeat constructor.
    - by eexists. }
  constructor; [exact Hobj |]. constructor; [exact Hobj | constructor].
Defined.

(** ** Legacy links *)

Lemma only_adds_refl st : only_adds st st.
Proof. by repeat split. Qed.

Lemma only_adds_trans st1 st2 st3 :
  only_adds st1 st2 -> only_adds st2 st3 -> only_adds st1 st3.
Proof.
  intros (H1 & H2 & H3 & H4) (H1' & H2' & H3' & H4'). repeat split;
    [by etrans | congruence | congruence | congruence].
Qed.

Lemma on_fs_only_adds op st st1 :
  (forall f f', op f = inr f' -> f ⊆ f') ->
  on_fs op st = (inr tt, st1) -> only_adds st st1.
Proof.
  intros Hop. unfold on_fs.
  destruct (op (fs st)) as [e | f'] eqn:Hf; [by intros [=] |].
  intros [= <-]. repeat split. cbn [fs set_fs]. by apply Hop.
Qed.

Lemma makedirs_from_subseteq todo : forall walked f f',
  makedirs_from walked todo f = inr f' -> f ⊆ f'.
Proof.
  induction todo as [| s todo IH]; intros walked f f'; cbn [makedirs_from].
  - by intros [= ->].
  - destruct (f !! (walked ++ [s])) as [[| data] |] eqn:Hq; [| done |].
    + apply IH.
    + intros H%IH. etrans; [| exact H]. by apply insert_subseteq.
Qed.

Lemma mkdir_exist_ok_subseteq p f f' : mkdir_exist_ok p f = inr f' -> f ⊆ f'.
Proof.
  unfold mkdir_exist_ok.
  destruct (f !! p) as [[| ?] |] eqn:Hp; [by intros [= ->] | done |].
  destruct (f !! parent p) as [[| ?] |]; [| done | done].
  intros [= <-]. by apply insert_subseteq.
Qed.

Lemma os_link_subseteq src dst f f' : os_link src dst f = inr f' -> f ⊆ f'.
Proof.
  unfold os_link. destruct (f !! src) as [[| data] |]; [done | | done].
  destruct (f !! dst) eqn:Hd; [done |].
  destruct (f !! parent dst) as [[| ?] |]; [| done | done].
  intros [= <-]. by apply insert_subseteq.
Qed.

Lemma os_link_present src dst f f' :
  os_link src dst f = inr f' -> is_Some (f' !! dst).
Proof.
  unfold os_link. destruct (f !! src) as [[| data] |]; [done | | done].
  destruct (f !! dst) eqn:Hd; [done |].
  destruct (f !! parent dst) as [[| ?] |]; [| done | done].
  intros [= <-]. by rewrite lookup_insert_eq.
Qed.

Lemma for_each_invariant {A} (body : A -> M unit) (I : state -> state -> Prop)
    (Q : A -> state -> Prop) (l : list A) :
  (forall st, I st st) ->
  (forall s1 s2 s3, I s1 s2 -> I s2 s3 -> I s1 s3) ->
  (forall x st st1, body x st = (inr tt, st1) -> I st st1 /\ Q x st1) ->
  (forall x s1 s2, I s1 s2 -> Q x s1 -> Q x s2) ->
  forall st st',
    for_each body l st = (inr tt, st') ->
    I st st' /\ Forall (fun x => Q x st') l.
Proof.
  intros Hrefl Htrans Hbody Hmono.
  induction l as [| x l IH]; intros st st'; cbn [for_each].
  - intros [= <-]. by split.
  - intros Hrun. apply bind_inv in Hrun as ([] & st1 & Hx & Hrest).
    destruct (Hbody _ _ _ Hx) as [HI HQ].
    destruct (IH _ _ Hrest) as [HI' HQ'].
    split; [by eapply Htrans |]. constructor; [by eapply Hmono | done].
Qed.

Section LegacyFacts.
Variable LOCALAPPDATA : path.
Variable json_error : exn.
Variable load_index : str -> option (list (str * AssetObject)).

Lemma link_legacy_asset_step legacy_dir item st st1 :
  link_legacy_asset LOCALAPPDATA legacy_dir item st = (inr tt, st1) ->
  only_adds st st1 /\ is_Some (fs st1 !! path_join legacy_dir item.1).
Proof.
  unfold link_legacy_asset.
  destruct (fs st !! path_join legacy_dir item.1) as [n |] eqn:Hl.
  - erewrite bind_ok by (apply path_exists_true; by rewrite Hl).
    cbn beta iota. intros [= <-]. split; [apply only_adds_refl |].
    by rewrite Hl.
  - erewrite bind_ok by by apply path_exists_false.
    cbn beta iota. intros Hrun.
    apply bind_inv in Hrun as ([] & st2 & Hmk & Hlink).
    split.
    + eapply only_adds_trans.
      * eapply on_fs_only_adds; [| exact Hmk].
        intros f f'. apply makedirs_from_subseteq.
      * eapply on_fs_only_adds; [| exact Hlink].
        intros f f'. apply os_link_subseteq.
    + revert Hlink. unfold on_fs.
      destruct (os_link _ _ (fs st2)) as [e | f'] eqn:Hf; [by intros [=] |].
      intros [= <-]. cbn [fs set_fs]. by eapply os_link_present.
Qed.

(** X27: [link_legacy_assets] does nothing for an asset index other than
    [legacy] and [pre-1.6]; and for those two, when it returns, the disk
    has only grown (no file or directory that existed was changed or
    removed, so an existing link is never overwritten), nothing was
    requested, and for every object of the index with a relative name
    there is something at the place of its link under the resources
    directory of the profile. *)
Theorem link_legacy_assets_only_adds (profile_name : str)
    (version_json : VersionJson) (st st' : state) :
  link_legacy_assets LOCALAPPDATA json_error load_index profile_name
    version_json st = (inr tt, st') ->
  only_adds st st'
  /\ (index_id (v_assetIndex version_json) <> py "legacy" ->
      index_id (v_assetIndex version_json) <> py "pre-1.6" ->
      st' = st)
  /\ (index_id (v_assetIndex version_json) = py "legacy"
      \/ index_id (v_assetIndex version_json) = py "pre-1.6" ->
      exists text objects,
        fs st !! (ASSET_INDEXES_DIRECTORY LOCALAPPDATA
                  /: (index_id (v_assetIndex version_json) ++ py ".json"))
        = Some (File text)
        /\ load_index text = Some objects
        /\ Forall
             (fun item =>
                relative_name item.1 ->
                is_Some
                  (fs st' !! path_join
                     (PROFILES_DIRECTORY LOCALAPPDATA
                      /: format_name profile_name /: py ".minecraft"
                      /: py "resources") item.1))
             objects).
Proof.
  unfold link_legacy_assets.
  destruct (bool_decide (index_id (v_assetIndex version_json) = py "legacy")
            || bool_decide (index_id (v_assetIndex version_json) = py "pre-1.6"))
    eqn:Hid; cbn [negb].
  - intros Hrun.
    apply bind_inv in Hrun as (text & s1 & Hread & Hrun).
    apply bind_inv in Hrun as (objects & s2 & Hload & Hrun).
    apply bind_inv in Hrun as ([] & s3 & Hmk & Hloop).
    assert (Hfile : fs st !! (ASSET_INDEXES_DIRECTORY LOCALAPPDATA
                     /: (index_id (v_assetIndex version_json) ++ py ".json"))
                    = Some (File text) /\ s1 = st).
    { revert Hread. unfold read_file.
      destruct (fs st !! _) as [[| data] |]; intros [=]; by subst. }
    destruct Hfile as [Hfile ->].
    assert (Hobjects : load_index text = Some objects /\ s2 = st).
    { revert Hload. unfold json_load.
      destruct (load_index text); intros [=]; by subst. }
    destruct Hobjects as [Hobjects ->].
    apply on_fs_only_adds in Hmk; [| apply mkdir_exist_ok_subseteq].
    eapply (for_each_invariant _ only_adds
              (fun item s => is_Some (fs s !! path_join _ item.1)))
      in Hloop as [Hadds Hall].
    + split; [by eapply only_adds_trans |]. split.
      * intros H1 H2. apply orb_prop in Hid as [Hid | Hid];
          by apply bool_decide_eq_true in Hid.
      * intros _. exists text, objects. split; [done |]. split; [done |].
        eapply Forall_impl; [exact Hall |]. intros item H _. exact H.
    + apply only_adds_refl.
    + apply only_adds_trans.
    + intros item s s'. apply link_legacy_asset_step.
    + intros item s1 s2 (Hsub & _) [n Hn]. exists n.
      by eapply lookup_weaken.
  - intros [= <-]. split; [apply only_adds_refl |]. split; [done |].
    intros [Hl | Hp]; apply orb_false_elim in Hid as [H1 H2];
      apply bool_decide_eq_false in H1, H2; done.
Qed.
End LegacyFacts.

Lemma link_legacy_assets_only_adds_witness :
  let run :=
    link_legacy_assets [py "L"] StopIteration example_load_index (py "Old")
      example_legacy_version example_legacy_state in
  fst run = inr tt
  /\ only_adds example_legacy_state (snd run)
  /\ fs (snd run) !! [py "L"; py "MyMinecraftLauncher"; py "profiles"; py "Old";
                      py ".minecraft"; py "resources"; py "icons";
                      py "icon_16x16.png"] = Some (File (py "data")).
Proof.
  intros run.
  assert (Hfst : fst run = inr tt) by (vm_compute; reflexivity).
  split; [exact Hfst |]. split; [| vm_compute; reflexivity].
  eapply (link_legacy_assets_only_adds [py "L"] StopIteration
            example_load_index (py "Old") example_legacy_version
            example_legacy_state).
  fold run. destruct run as [r s]. cbn [fst snd] in *. by rewrite Hfst.
Defined.

Lemma makedirs_from_file todo : forall walked s f data,
  Forall (fun q => f !! q = Some Dir) (prefixes_from walked todo) ->
  f !! (walked ++ todo ++ [s]) = Some (File data) ->
  makedirs_from walked (todo ++ [s]) f
  = inl (FileExistsError (walked ++ todo ++ [s])).
Proof.
  induction todo as [| t todo IH]; intros walked s f data Hall Hfile;
    cbn [app makedirs_from prefixes_from] in *.
  - by rewrite Hfile.
  - apply Forall_cons in Hall as [-> Hall].
    erewrite IH; rewrite <- ?app_assoc; done.
Qed.

Section Escape.
Variable LOCALAPPDATA : path.
Variable VersionJson : Type.
Variable get_version_json : str -> M VersionJson.
Variable download_version : VersionJson -> M unit.
Variable link_legacy_assets : str -> VersionJson -> M unit.

(** X28: when a regular file has the name the profile directory would get,
    [create_profile] raises [FileExistsError] and changes nothing, and the
    cleanup of the Create handler raises in turn, since [shutil.rmtree]
    refuses a file: the handler shows no message, the second exception
    leaves it, and the state is unchanged. *)
Theorem on_create_cleanup_raises (c : char) (sel name data : str)
    (st : state) :
  plain (format_name name) ->
  format_name name ∉ profiles st ->
  Forall (fun q => fs st !! q = Some Dir)
    (prefixes_from [] (PROFILES_DIRECTORY LOCALAPPDATA)) ->
  fs st !! (PROFILES_DIRECTORY LOCALAPPDATA /: format_name name)
  = Some (File data) ->
  fs st !! (PROFILES_DIRECTORY LOCALAPPDATA /: format_name name
            /: py ".minecraft") = None ->
  create_profile LOCALAPPDATA VersionJson get_version_json download_version
    link_legacy_assets name (c :: sel) st
  = (inl (FileExistsError
            (PROFILES_DIRECTORY LOCALAPPDATA /: format_name name)), st)
  /\ _on_create LOCALAPPDATA VersionJson get_version_json download_version
       link_legacy_assets (Some (c :: sel)) name st
     = (Escaped (NotADirectoryError
                   (PROFILES_DIRECTORY LOCALAPPDATA /: format_name name)),
        st).
Proof.
  intros Hplain Hreg Hdirs Hfile Hnone.
  set (pdir := PROFILES_DIRECTORY LOCALAPPDATA /: format_name name) in *.
  assert (Hpdir : pdir = PROFILES_DIRECTORY LOCALAPPDATA ++ [format_name name])
    by by apply path_div_plain.
  assert (Hcreate :
    create_profile LOCALAPPDATA VersionJson get_version_json download_version
      link_legacy_assets name (c :: sel) st
    = (inl (FileExistsError pdir), st)).
  { unfold create_profile. fold pdir.
    erewrite bind_err; [done |]. apply on_fs_err.
    unfold mkdir_parents. rewrite Hnone, parent_div by by split.
    unfold makedirs_exist_ok.
    rewrite Hpdir, (makedirs_from_file _ [] _ _ data Hdirs); [done |].
    cbn [app]. by rewrite <- Hpdir. }
  split; [done |].
  unfold _on_create, profile_exists.
  rewrite bool_decide_eq_false_2 by done. cbn [negb]. rewrite Hcreate.
  assert (Hdelete : delete_profile LOCALAPPDATA name st
                    = (inl (NotADirectoryError pdir), st)).
  { unfold delete_profile. fold pdir. erewrite bind_err; [done |].
    apply on_fs_err. unfold rmtree. by rewrite Hfile. }
  by rewrite Hdelete.
Qed.
End Escape.

Lemma on_create_cleanup_raises_witness :
  _on_create [py "L"] unit example_get_version_json example_download_version
    example_link_legacy_assets (Some (py "1.8.9")) (py "notes")
    example_occupied_state
  = (Escaped (NotADirectoryError
                [py "L"; py "MyMinecraftLauncher"; py "profiles"; py "notes"]),
     example_occupied_state).
Proof.
  refine (proj2 (on_create_cleanup_raises [py "L"] unit
                   example_get_version_json example_download_version
                   example_link_legacy_assets (ch "1") (py ".8.9") (py "notes")
                   (py "text") example_occupied_state _ _ _ eq_refl eq_refl)).
  - by split.
  - by intros ?%elem_of_nil.
  - repeat constructor.
Defined.

(** ** A creation that fails after its downloads *)





Section FailedCreation.
Variables (TEMP LOCALAPPDATA : path).
Variable network : str -> response.
Variable zip_members : str -> option (list (path * node)).
Variable manifest : list ManifestEntry.
Variable json_error : exn.
Variable load_version : str -> option VersionJson.
Variable dump_version : VersionJson -> str.
Variable load_index : str -> option (list (str * AssetObject)).
Variable dump_index : list (str * AssetObject) -> str.

Local Abbreviation on_create_click :=
  (_on_create LOCALAPPDATA VersionJson
     (get_version_json LOCALAPPDATA network manifest json_error load_version
        dump_version)
     (download_version TEMP LOCALAPPDATA network zip_members json_error
        load_index dump_index)
     (link_legacy_assets LOCALAPPDATA json_error load_index)).

End FailedCreation.

